(** * Paddock-Pal: the retrieval pipeline of [Streamlit/paddockpal1.py]

    A shallow embedding of the question-answering module of the
    application: start-up validation of the configuration, provisioning of
    the three vector indexes, the per-index hybrid query, the cross-index
    merge, the assembly of the context and the answer synthesis.

    The hosted services (embedding API, vector indexes, chat completion,
    object store client) are outside the repository.  Their answers are
    taken from a record of oracles, and every call made to them is written
    to a trace, so that statements such as "no index is queried" or
    "exactly one create call" are statements about that trace. *)

From Stdlib Require Import Ascii String QArith.
From stdpp Require Import gmap strings list sorting.

#[local] Set Warnings "-clear-no-such-hyp".

Local Open Scope string_scope.
Local Open Scope list_scope.

(** ** Strings

    Python [str] values are modelled by [string]; [str.lower] and
    [str.strip] are modelled on the ASCII range. *)

Module Str.

Definition nl : string := String (ascii_of_nat 10) EmptyString.

Definition lower_ascii (c : ascii) : ascii :=
  let n := nat_of_ascii c in
  if (65 <=? n)%nat && (n <=? 90)%nat then ascii_of_nat (n + 32) else c.

Fixpoint lower (s : string) : string :=
  match s with
  | EmptyString => EmptyString
  | String c s' => String (lower_ascii c) (lower s')
  end.

(** [needle in hay] of Python. *)
Fixpoint contains (needle hay : string) : bool :=
  String.prefix needle hay ||
  match hay with
  | EmptyString => false
  | String _ hay' => contains needle hay'
  end.

Definition is_space (c : ascii) : bool :=
  let n := nat_of_ascii c in
  ((9 <=? n)%nat && (n <=? 13)%nat) || ((28 <=? n)%nat && (n <=? 32)%nat).

Fixpoint lstrip (s : string) : string :=
  match s with
  | EmptyString => EmptyString
  | String c s' => if is_space c then lstrip s' else s
  end.

Fixpoint rstrip (s : string) : string :=
  match s with
  | EmptyString => EmptyString
  | String c s' =>
      match rstrip s' with
      | EmptyString => if is_space c then EmptyString else String c EmptyString
      | r => String c r
      end
  end.

Definition strip (s : string) : string := rstrip (lstrip s).

(** [sep.join(l)] of Python. *)
Definition join (sep : string) (l : list string) : string := String.concat sep l.

(** Truth value of a Python string: only the empty string is falsy. *)
Definition truthy (s : string) : bool :=
  match s with EmptyString => false | _ => true end.

End Str.

(** ** Data model *)

(** The [metadata] dict of a match; only its ["text"] key is read, through
    [.get("text", "")]. *)
Record Metadata := { text : option string }.

#[export] Instance Metadata_eq_dec : EqDecision Metadata.
Proof. solve_decision. Defined.

(** A match returned by a vector index: a dict whose ["metadata"] key is
    read with [match["metadata"]] and whose ["score"] key is read with
    [.get("score", 0)].  [id] stands for the vector's identifier, the part
    of the dict the module never reads but that dict equality sees. *)
Record Match := {
  id : string;
  score : option Q;
  metadata : option Metadata
}.

Definition Embedding := list Q.

(** [response["data"][0]["embedding"]] *)
Record EmbeddingItem := { embedding : option Embedding }.
Record EmbeddingResponse := { data : option (list EmbeddingItem) }.

(** [response.get("matches", [])] *)
Record QueryResponse := { matches : option (list Match) }.

(** [response["choices"][0]["message"]["content"]] *)
Record ChatReply := { content : option string }.
Record ChatChoice := { message : option ChatReply }.
Record ChatResponse := { choices : option (list ChatChoice) }.

Record ChatMessage := { role : string; msg_content : string }.

(** Python exceptions that the module raises or that reach its handlers. *)
Inductive exn :=
| ValueError (msg : string)
| KeyError (key : string)
| IndexError (msg : string)
| ServiceError (msg : string).

(** [str(e)] as used by the f-strings of the handlers. *)
Definition exn_str (e : exn) : string :=
  match e with
  | ValueError m => m
  | KeyError k => "'" +:+ k +:+ "'"
  | IndexError m => m
  | ServiceError m => m
  end.

(** The result of running a piece of Python: a value or a raised
    exception. *)
Inductive outcome (A : Type) :=
| Returned (a : A)
| Raised (e : exn).
Arguments Returned {A} a.
Arguments Raised {A} e.

(** Everything the module does to the outside. *)
Inductive Event :=
| EvListIndexes
| EvCreateIndex (name : string) (dimension : Z) (metric : string)
                (cloud : string) (region : option string)
| EvIndexHandle (name host : string)
| EvIndexQuery (name : string) (vector : Embedding) (top_k : nat)
               (include_metadata : bool)
| EvEmbeddingCreate (input model : string)
| EvChatCreate (model : string) (messages : list ChatMessage)
               (max_tokens : Z) (temperature : Q)
| EvBoto3Client (service : string)
                (aws_access_key_id aws_secret_access_key region_name : option string)
| EvPrint (line : string)
| EvPrintResults (name : string) (results : list Match)
| EvUI (widget : string) (body : string).

(** The state threaded through the module: the index names known to the
    Pinecone control plane and the trace, oldest event first. *)
Record World := {
  indexes : gset string;
  trace : list Event
}.

(** The answers of the hosted services. *)
Record Services := {
  embedding_create : string -> string -> outcome EmbeddingResponse;
  index_query : string -> Embedding -> nat -> outcome QueryResponse;
  chat_create : list ChatMessage -> outcome ChatResponse;
  boto3_client : option string -> option string -> option string -> outcome unit
}.

(** ** A state-and-exception monad *)

Definition M (A : Type) : Type := World -> outcome A * World.

Definition run {A} (m : M A) (w : World) : outcome A * World := m w.

Definition ret {A} (a : A) : M A := fun w => (Returned a, w).

Definition raise {A} (e : exn) : M A := fun w => (Raised e, w).

Definition bind {A B} (m : M A) (k : A -> M B) : M B :=
  fun w =>
    match m w with
    | (Returned a, w') => k a w'
    | (Raised e, w') => (Raised e, w')
    end.

(** [try: m  except Exception as e: h e] *)
Definition try_except {A} (m : M A) (h : exn -> M A) : M A :=
  fun w =>
    match m w with
    | (Returned a, w') => (Returned a, w')
    | (Raised e, w') => h e w'
    end.

Definition emit (e : Event) : M unit :=
  fun w => (Returned tt, {| indexes := indexes w; trace := trace w ++ [e] |}).

Definition print (line : string) : M unit := emit (EvPrint line).

(** Lifts the answer of a service into the monad. *)
Definition lift {A} (o : outcome A) : M A := fun w => (o, w).

#[export] Instance M_ret : MRet M := @ret.
#[export] Instance M_bind : MBind M := fun A B k m => bind m k.

(** [for x in l: acc = body acc x] *)
Fixpoint for_each {A S} (l : list A) (body : S -> A -> M S) (acc : S) : M S :=
  match l with
  | [] => ret acc
  | x :: l' => acc' ← body acc x; for_each l' body acc'
  end.

(** [outcome] is the exception monad of the pure parts of the module. *)
#[export] Instance outcome_ret : MRet outcome := @Returned.
#[export] Instance outcome_bind : MBind outcome := fun A B k o =>
  match o with
  | Returned a => k a
  | Raised e => Raised e
  end.

(** [d[key]] on a dict whose entry for [key] is [o]. *)
Definition subscript {A} (key : string) (o : option A) : outcome A :=
  match o with
  | Some a => Returned a
  | None => Raised (KeyError key)
  end.

(** [l[0]] *)
Definition first_item {A} (l : list A) : outcome A :=
  match l with
  | a :: _ => Returned a
  | [] => Raised (IndexError "list index out of range")
  end.

(** ** Module globals of [paddockpal1.py] *)

(** [os.environ] once [load_dotenv()] has run. *)
Abbreviation Environ := (gmap string string).

Definition getenv (env : Environ) (key : string) : option string := env !! key.

(** Truth value of the result of [os.getenv]: [None] and [""] are falsy. *)
Definition truthy_env (o : option string) : bool :=
  match o with
  | Some s => Str.truthy s
  | None => false
  end.

Record Globals := {
  OPENAI_API_KEY : option string;
  PINECONE_API_KEY : option string;
  PINECONE_ENVIRONMENT : option string
}.

Definition read_globals (env : Environ) : Globals :=
  {| OPENAI_API_KEY := getenv env "OPENAI_API_KEY";
     PINECONE_API_KEY := getenv env "PINECONE_API_KEY";
     PINECONE_ENVIRONMENT := getenv env "PINECONE_ENV" |}.

Definition INDEX_NAMES : list string :=
  [ "sporting-regulations-embeddings";
    "technical-regulations-embeddings";
    "financial-regulations-embeddings" ].

Definition INDEX_HOSTS : gmap string string :=
  list_to_map
    [ ("sporting-regulations-embeddings",
       "sporting-regulations-embeddings-jl357j9.svc.aped-4627-b74a.pinecone.io");
      ("technical-regulations-embeddings",
       "technical-regulations-embeddings-jl357j9.svc.aped-4627-b74a.pinecone.io");
      ("financial-regulations-embeddings",
       "financial-regulations-embeddings-jl357j9.svc.aped-4627-b74a.pinecone.io") ].

(** ** [sorted(l, key=key, reverse=True)]

    Python's [sorted] is a stable sort, also under [reverse=True]: the
    result is in descending key order and items with equal keys keep the
    order they had in [l].  There is exactly one such list (see
    [sorted_reverse_unique]); it is computed here by insertion. *)

Section Sorted.

Context {A : Type} (key : A -> Q).

(** Puts [x] in front of the first item whose key is not greater. *)
Fixpoint insert_desc (x : A) (l : list A) : list A :=
  match l with
  | [] => [x]
  | y :: l' =>
      if Qle_bool (key y) (key x) then x :: l else y :: insert_desc x l'
  end.

Definition sorted_reverse (l : list A) : list A := foldr insert_desc [] l.

End Sorted.

(** ** The Pinecone control plane

    [list_indexes().names()] reads the set of index names;
    [create_index] adds a name to it and refuses a name it already has. *)

Definition read_indexes : M (gset string) :=
  fun w => (Returned (indexes w), w).

Definition register_index (name : string) : M unit :=
  fun w =>
    if decide (name ∈ indexes w)
    then (Raised (ServiceError "index already exists"), w)
    else (Returned tt, {| indexes := {[name]} ∪ indexes w; trace := trace w |}).

Definition list_indexes_names : M (gset string) :=
  emit EvListIndexes;; read_indexes.

Definition create_index (name : string) (dimension : Z) (metric : string)
    (cloud : string) (region : option string) : M unit :=
  emit (EvCreateIndex name dimension metric cloud region);;
  register_index name.

Definition default_dimension : Z := 1536.
Definition default_metric : string := "cosine".

Section Program.

Variable g : Globals.
Variable svc : Services.

Definition ensure_index_exists (index_name : string) (dimension : Z)
    (metric : string) : M unit :=
  names ← list_indexes_names;
  if decide (index_name ∉ names) then
    create_index index_name dimension metric "aws" (PINECONE_ENVIRONMENT g);;
    print ("Created index: " +:+ index_name)
  else
    print ("Index " +:+ index_name +:+ " already exists.").

(** [for index in INDEX_NAMES: ensure_index_exists(index)] *)
Definition ensure_all_indexes : M unit :=
  for_each INDEX_NAMES
    (fun _ index => ensure_index_exists index default_dimension default_metric) tt.

(** The handle returned by [pinecone_client.Index(index_name, host=host)]. *)
Record IndexHandle := { handle_name : string; handle_host : string }.

Definition get_pinecone_index (index_name : string) : M IndexHandle :=
  if negb (truthy_env (PINECONE_ENVIRONMENT g)) then
    raise (ValueError
      "PINECONE_ENVIRONMENT is not set. Ensure it is defined in the environment variables.")
  else
    let host := INDEX_HOSTS !! index_name in
    if negb (truthy_env host) then
      raise (ValueError ("Host for index " +:+ index_name +:+ " is not defined."))
    else
      let host := default "" host in
      print ("Connecting to Pinecone index at host: " +:+ host);;
      emit (EvIndexHandle index_name host);;
      ret {| handle_name := index_name; handle_host := host |}.

(** [index.query(vector=..., top_k=..., include_metadata=True)] *)
Definition index_query_call (index : IndexHandle) (vector : Embedding)
    (top_k : nat) : M QueryResponse :=
  emit (EvIndexQuery (handle_name index) vector top_k true);;
  lift (index_query svc (handle_name index) vector top_k).

Definition embedding_model : string := "text-embedding-ada-002".

Definition generate_embeddings_openai (text : string) : M (option Embedding) :=
  try_except
    (emit (EvEmbeddingCreate text embedding_model);;
     response ← lift (embedding_create svc text embedding_model);
     e ← lift (d ← subscript "data" (data response);
               item ← first_item d;
               subscript "embedding" (embedding item));
     ret (Some e))
    (fun e =>
       print ("Error generating embeddings with OpenAI: " +:+ exn_str e);;
       ret None).

(** [match["metadata"].get("text", "")] *)
Definition match_text (m : Match) : outcome string :=
  md ← subscript "metadata" (metadata m);
  mret (default "" (text md)).

(** [any(keyword.lower() in match["metadata"].get("text", "").lower()
        for keyword in keywords)]: the generator is consumed until the
    first true test; the metadata of the match is read once per keyword
    tested, so not at all when there is no keyword. *)
Fixpoint any_keyword (keywords : list string) (m : Match) : outcome bool :=
  match keywords with
  | [] => Returned false
  | keyword :: keywords' =>
      t ← match_text m;
      if Str.contains (Str.lower keyword) (Str.lower t) then Returned true
      else any_keyword keywords' m
  end.

(** [[match for match in matches if any(...)]] *)
Fixpoint keyword_filter (keywords : list string) (ms : list Match)
    : outcome (list Match) :=
  match ms with
  | [] => Returned []
  | m :: ms' =>
      b ← any_keyword keywords m;
      rest ← keyword_filter keywords ms';
      mret (if (b : bool) then m :: rest else rest)
  end.

(** Equality of two score entries: both absent, or numerically equal. *)
Definition score_eqb (a b : option Q) : bool :=
  match a, b with
  | Some x, Some y => Qeq_bool x y
  | None, None => true
  | _, _ => false
  end.

(** [==] on two match dicts. *)
Definition match_eqb (a b : Match) : bool :=
  bool_decide (id a = id b) && score_eqb (score a) (score b) &&
  bool_decide (metadata a = metadata b).

(** [m not in l] *)
Definition not_in (m : Match) (l : list Match) : bool :=
  negb (existsb (match_eqb m) l).

(** The default of the [top_k] parameter of [query_pinecone]; the module's
    one call passes 10 instead. *)
Definition default_top_k : nat := 5.

Definition query_pinecone (index_name : string) (query_embedding : Embedding)
    (keywords : option (list string)) (top_k : nat) : M (list Match) :=
  let keywords := default [] keywords in
  try_except
    (index ← get_pinecone_index index_name;
     response ← index_query_call index query_embedding top_k;
     let matches := default [] (matches response) in
     keyword_matches ← lift (keyword_filter keywords matches);
     let combined_results :=
       keyword_matches ++ List.filter (fun m => not_in m keyword_matches) matches in
     ret (take top_k combined_results))
    (fun e =>
       print ("Error querying index " +:+ index_name +:+ ": " +:+ exn_str e);;
       ret []).

(** [x.get("score", 0)] *)
Definition score_key (x : Match) : Q := default 0%Q (score x).

(** Truth value of what [generate_embeddings_openai] returns: [None] and
    the empty list are falsy. *)
Definition truthy_embedding (e : option Embedding) : bool :=
  match e with
  | Some (_ :: _) => true
  | _ => false
  end.

(** The body of the loop over [INDEX_NAMES]. *)
Definition search_index (query_embedding : Embedding)
    (all_results : list Match) (index_name : string) : M (list Match) :=
  print ("Searching index: " +:+ index_name +:+ "...");;
  results ← query_pinecone index_name query_embedding (Some []) 10;
  emit (EvPrintResults index_name results);;
  ret (all_results ++ results).

(** The loop of [fetch_relevant_documents] that fills [all_results]. *)
Definition gather_results (query_embedding : Embedding) : M (list Match) :=
  for_each INDEX_NAMES (search_index query_embedding) [].

(** The last two statements of [fetch_relevant_documents]. *)
Definition rank_results (all_results : list Match) : list Match :=
  let sorted_results := sorted_reverse score_key all_results in
  take 5 sorted_results.

Definition fetch_relevant_documents (query : string) : M (list Match) :=
  print ("Processing query: " +:+ query);;
  query_embedding ← generate_embeddings_openai query;
  if negb (truthy_embedding query_embedding) then
    print "Failed to generate query embeddings.";;
    ret []
  else
    let query_embedding := default [] query_embedding in
    all_results ← gather_results query_embedding;
    ret (rank_results all_results).

(** The loop of [get_combined_context]. *)
Fixpoint collect_contexts (matches : list Match) (seen_texts : gset string)
    (contexts : list string) : outcome (list string) :=
  match matches with
  | [] => Returned contexts
  | m :: matches' =>
      text ← match_text m;
      if Str.truthy text && bool_decide (text ∉ seen_texts) then
        collect_contexts matches' ({[text]} ∪ seen_texts) (contexts ++ [text])
      else
        collect_contexts matches' seen_texts contexts
  end.

Definition block_separator : string := Str.nl +:+ Str.nl.

Definition get_combined_context (matches : list Match) : outcome string :=
  contexts ← collect_contexts matches ∅ [];
  mret (Str.join block_separator (take 3 contexts)).

Definition no_information : string :=
  "No relevant information found in the database.".

Definition answer_failed : string :=
  "An error occurred while generating the answer.".

Definition system_prompt : string :=
  "You are a knowledgeable assistant with expertise in Formula 1 regulations.".

Definition user_prompt (context query : string) : string :=
  "Based on the following context, answer the question in detail. Provide a comprehensive response, include all relevant points, and elaborate wherever possible."
  +:+ Str.nl +:+ Str.nl +:+ "Context:" +:+ Str.nl +:+ context
  +:+ Str.nl +:+ Str.nl +:+ "Question:" +:+ Str.nl +:+ query.

Definition generate_answer_with_openai (context query : string) : M string :=
  if negb (Str.truthy context) then
    ret no_information
  else
    let messages :=
      [ {| role := "system"; msg_content := system_prompt |};
        {| role := "user"; msg_content := user_prompt context query |} ] in
    try_except
      (emit (EvChatCreate "gpt-4" messages 5000 (7 # 10));;
       response ← lift (chat_create svc messages);
       answer ← lift (cs ← subscript "choices" (choices response);
                      choice ← first_item cs;
                      reply ← subscript "message" (message choice);
                      subscript "content" (content reply));
       ret (Str.strip answer))
      (fun e =>
         print ("Error generating answer with OpenAI: " +:+ exn_str e);;
         ret answer_failed).

(** [show_paddockpal], given what the user typed and whether the submit
    button was pressed. *)
Definition show_paddockpal (query : string) (submit : bool) : M unit :=
  emit (EvUI "write"
    "Ask questions about Formula 1 regulations and get accurate answers!");;
  emit (EvUI "text_input" "Enter your question:");;
  emit (EvUI "button" "Submit");;
  if submit then
    if negb (Str.truthy (Str.strip query)) then
      emit (EvUI "warning" "Please enter a valid question.")
    else
      emit (EvUI "write" "Processing your query...");;
      matches ← fetch_relevant_documents query;
      context ← lift (get_combined_context matches);
      emit (EvUI "subheader" "Generated Answer:");;
      answer ← generate_answer_with_openai context query;
      emit (EvUI "write" answer)
  else
    ret tt.

End Program.

(** ** Module initialisation *)

Definition missing_configuration : string :=
  "API keys or environment variables for OpenAI and Pinecone are missing.".

(** The statements [paddockpal1.py] runs when it is imported: read the
    three settings, validate them, provision the indexes. *)
Definition paddockpal1_init (env : Environ) : M Globals :=
  let g := read_globals env in
  if negb (truthy_env (OPENAI_API_KEY g))
     || negb (truthy_env (PINECONE_API_KEY g))
     || negb (truthy_env (PINECONE_ENVIRONMENT g))
  then raise (ValueError missing_configuration)
  else
    ensure_all_indexes g;;
    ret g.

(** The statements [informationpage.py] runs when it is imported: after
    [load_dotenv()] it only defines functions. *)
Definition informationpage_init (env : Environ) : M unit := ret tt.

(** [init_s3_client] of [informationpage.py], called when the history
    page first loads its content. *)
Definition init_s3_client (svc : Services) (env : Environ) : M unit :=
  let aws_access_key_id := getenv env "AWS_ACCESS_KEY_ID" in
  let aws_secret_access_key := getenv env "AWS_SECRET_ACCESS_KEY" in
  let region_name := getenv env "AWS_REGION" in
  emit (EvBoto3Client "s3" aws_access_key_id aws_secret_access_key region_name);;
  lift (boto3_client svc aws_access_key_id aws_secret_access_key region_name).

(** The imports at the top of [landing.py], in order, of the modules
    above. *)
Definition landing_imports (env : Environ) : M Globals :=
  informationpage_init env;;
  paddockpal1_init env.

(** The six settings the application reads from its environment. *)
Definition REQUIRED_SETTINGS : list string :=
  [ "AWS_ACCESS_KEY_ID"; "AWS_SECRET_ACCESS_KEY"; "AWS_REGION";
    "OPENAI_API_KEY"; "PINECONE_API_KEY"; "PINECONE_ENV" ].

(** The settings [paddockpal1.py] validates. *)
Definition VALIDATED_SETTINGS : list string :=
  [ "OPENAI_API_KEY"; "PINECONE_API_KEY"; "PINECONE_ENV" ].

(** ** Vocabulary of the statements *)

(** The match has a metadata text in which some keyword occurs, case
    folded. *)
Definition contains_keyword (keywords : list string) (m : Match) : bool :=
  match metadata m with
  | Some md =>
      existsb (fun keyword =>
                 Str.contains (Str.lower keyword) (Str.lower (default "" (text md))))
              keywords
  | None => false
  end.

(** Keyword matches first, then the others, each group in the order of
    the response. *)
Definition merge_keyword_first (keywords : list string) (ms : list Match)
    : list Match :=
  List.filter (contains_keyword keywords) ms ++
  List.filter (fun m => negb (contains_keyword keywords m)) ms.

(** What an index answers to a query: its matches, none when the query
    fails or the response has no ["matches"] entry. *)
Definition index_matches (svc : Services) (index_name : string)
    (vector : Embedding) (top_k : nat) : list Match :=
  match index_query svc index_name vector top_k with
  | Returned response => default [] (matches response)
  | Raised _ => []
  end.

Definition has_metadata (m : Match) : Prop := is_Some (metadata m).

Definition is_index_query (ev : Event) : bool :=
  match ev with EvIndexQuery _ _ _ _ => true | _ => false end.

Definition is_chat_call (ev : Event) : bool :=
  match ev with EvChatCreate _ _ _ _ => true | _ => false end.

Definition is_create_call (ev : Event) : bool :=
  match ev with EvCreateIndex _ _ _ _ _ => true | _ => false end.

Definition is_ui (ev : Event) : bool :=
  match ev with EvUI _ _ => true | _ => false end.

(** The three events every connected query starts with. *)
Definition query_events (index_name host : string) (emb : Embedding)
    (top_k : nat) : list Event :=
  [ EvPrint ("Connecting to Pinecone index at host: " +:+ host);
    EvIndexHandle index_name host;
    EvIndexQuery index_name emb top_k true ].

Definition descending {A} (key : A -> Q) (l : list A) : Prop :=
  StronglySorted (fun a b => (key b <= key a)%Q) l.

(** The items of [l] whose key is [s], in the order of [l]. *)
Definition with_key {A} (key : A -> Q) (s : Q) (l : list A) : list A :=
  List.filter (fun x => Qeq_bool (key x) s) l.

(** [m] answers [o] in every world, adds [evs] to the trace and leaves
    the set of indexes alone. *)
Definition logs {A} (m : M A) (o : outcome A) (evs : list Event) : Prop :=
  forall w, run m w = (o, {| indexes := indexes w; trace := trace w ++ evs |}).

(** ** Sample inputs *)

Module Sample.

Definition empty_world : World := {| indexes := ∅; trace := [] |}.

Definition globals : Globals :=
  {| OPENAI_API_KEY := Some "sk-test";
     PINECONE_API_KEY := Some "pc-test";
     PINECONE_ENVIRONMENT := Some "us-east-1" |}.

Definition mk (i : string) (s : Q) (t : string) : Match :=
  {| id := i; score := Some s; metadata := Some {| text := Some t |} |}.

(** Six sporting matches, two technical ones, a financial index that
    fails. *)
Definition sporting : list Match :=
  [ mk "s1" (9 # 10) "Minimum weight of the car";
    mk "s2" (8 # 10) "Pit lane speed limit";
    mk "s3" (8 # 10) "Weight distribution";
    mk "s4" (7 # 10) "Tyre allocation";
    mk "s5" (6 # 10) "Parc ferme";
    mk "s6" (5 # 10) "Safety car" ].

Definition technical : list Match :=
  [ mk "t1" (8 # 10) "Minimum weight of the car";
    mk "t2" (4 # 10) "" ].

Definition answers (index_name : string) : outcome QueryResponse :=
  if String.eqb index_name "sporting-regulations-embeddings"
  then Returned {| matches := Some sporting |}
  else if String.eqb index_name "technical-regulations-embeddings"
  then Returned {| matches := Some technical |}
  else Raised (ServiceError "index unavailable").

Definition reply : ChatResponse :=
  {| choices := Some [ {| message := Some {| content := Some " 798 kg. " |} |} ] |}.

Definition services (e : outcome EmbeddingResponse) : Services :=
  {| embedding_create := fun _ _ => e;
     index_query := fun index_name _ _ => answers index_name;
     chat_create := fun _ => Returned reply;
     boto3_client := fun _ _ _ => Returned tt |}.

Definition vector : Embedding := [1 # 2; 1 # 4].

Definition embedded : outcome EmbeddingResponse :=
  Returned {| data := Some [ {| embedding := Some vector |} ] |}.

Definition embedded_empty : outcome EmbeddingResponse :=
  Returned {| data := Some [ {| embedding := Some [] |} ] |}.

Definition unavailable : outcome EmbeddingResponse :=
  Raised (ServiceError "rate limit").

(** An environment with the three validated settings and no AWS
    setting. *)
Definition environ : Environ :=
  <["OPENAI_API_KEY" := "sk-test"]>
    (<["PINECONE_API_KEY" := "pc-test"]>
       (<["PINECONE_ENV" := "us-east-1"]> ∅)).

(** The same without the Pinecone key. *)
Definition environ_no_pinecone : Environ :=
  <["OPENAI_API_KEY" := "sk-test"]> (<["PINECONE_ENV" := "us-east-1"]> ∅).

Definition query : string := "What are the minimum weight regulations?".

End Sample.

(** ** Vocabulary of the further statements *)

(** The text a match contributes to the context: its metadata text, the
    empty string when it has none. *)
Definition text_or_empty (m : Match) : string :=
  match metadata m with
  | Some md => default "" (text md)
  | None => ""
  end.

Definition nonempty_texts (ms : list Match) : list string :=
  List.filter Str.truthy (map text_or_empty ms).

(** The items of [l] without repetition, each at its first occurrence. *)
Definition first_occurrences (l : list string) : list string :=
  reverse (remove_dups (reverse l)).

(** The event is a call to one of the hosted services. *)
Definition is_service_call (ev : Event) : bool :=
  match ev with
  | EvIndexQuery _ _ _ _ | EvEmbeddingCreate _ _ | EvChatCreate _ _ _ _
  | EvCreateIndex _ _ _ _ _ | EvListIndexes | EvBoto3Client _ _ _ _ => true
  | _ => false
  end.

Definition is_embedding_call (ev : Event) : bool :=
  match ev with EvEmbeddingCreate _ _ => true | _ => false end.

(** The create call [ensure_index_exists] makes for [index_name] with its
    default arguments. *)
Definition create_event (g : Globals) (index_name : string) : Event :=
  EvCreateIndex index_name default_dimension default_metric "aws"
    (PINECONE_ENVIRONMENT g).


(** Further sample inputs. *)
Module Cases.

(** A match without a metadata entry. *)
Definition bare : Match :=
  {| id := "b1"; score := Some (3 # 10); metadata := None |}.

(** Services whose three indexes all answer [ms]. *)
Definition answering (ms : list Match) (e : outcome EmbeddingResponse)
    (c : outcome ChatResponse) : Services :=
  {| embedding_create := fun _ _ => e;
     index_query := fun _ _ _ => Returned {| matches := Some ms |};
     chat_create := fun _ => c;
     boto3_client := fun _ _ _ => Returned tt |}.

Definition mixed : list Match :=
  [ Sample.mk "m1" (9 # 10) "Minimum weight of the car"; bare ].

(** Matches with repeated and empty texts. *)
Definition repeated : list Match :=
  [ Sample.mk "r1" (9 # 10) "Minimum weight";
    Sample.mk "r2" (8 # 10) "";
    Sample.mk "r3" (7 # 10) "Minimum weight";
    Sample.mk "r4" (6 # 10) "Pit lane";
    Sample.mk "r5" (5 # 10) "Parc ferme";
    Sample.mk "r6" (4 # 10) "Safety car" ].

End Cases.

(** * The pages around the assistant

    [informationpage.py], [landing.py] and the console loop of
    [paddockpal1.py] do things the assistant itself does not: they read the
    object store, keep the session state and read the console.  They run in
    a second monad whose world holds the session state and a trace of
    [AppEvent]s, into which the computations of [M] are lifted. *)

Inductive AppEvent :=
| Core (ev : Event)
| EvHtml (body : string)
| EvS3GetObject (Bucket Key : string)
| EvS3ListObjects (Bucket Prefix : string)
| EvColumns (spec : list Z)
| EvColumnMarkdown (column : nat) (body : string)
| EvColumnImage (column : nat) (image caption : string)
| EvSidebar (widget body : string)
| EvInput (prompt : string).

(** What can be raised there: the exceptions of the assistant, and the
    [EOFError] of [input()]. *)
Inductive failure :=
| Exn (e : exn)
| EOFError.

Definition failure_str (f : failure) : string :=
  match f with
  | Exn e => exn_str e
  | EOFError => "EOF when reading a line"
  end.

Inductive result (A : Type) :=
| Done (a : A)
| Failed (f : failure).
Arguments Done {A} a.
Arguments Failed {A} f.

Definition to_result {A} (o : outcome A) : result A :=
  match o with
  | Returned a => Done a
  | Raised e => Failed (Exn e)
  end.

(** [st.session_state] is a dict of strings here; [pinecone] is the
    control plane the lifted computations see. *)
Record AppWorld := {
  pinecone : gset string;
  session_state : gmap string string;
  app_trace : list AppEvent
}.

Definition App (A : Type) : Type := AppWorld -> result A * AppWorld.

Definition run_app {A} (m : App A) (aw : AppWorld) : result A * AppWorld := m aw.

Definition app_ret {A} (a : A) : App A := fun aw => (Done a, aw).

Definition app_raise {A} (f : failure) : App A := fun aw => (Failed f, aw).

Definition app_bind {A B} (m : App A) (k : A -> App B) : App B :=
  fun aw =>
    match m aw with
    | (Done a, aw') => k a aw'
    | (Failed f, aw') => (Failed f, aw')
    end.

#[export] Instance App_ret : MRet App := @app_ret.
#[export] Instance App_bind : MBind App := fun A B k m => app_bind m k.

(** [try: m  except Exception as e: h e] *)
Definition app_try_except {A} (m : App A) (h : failure -> App A) : App A :=
  fun aw =>
    match m aw with
    | (Done a, aw') => (Done a, aw')
    | (Failed f, aw') => h f aw'
    end.

Definition app_emit (ev : AppEvent) : App unit :=
  fun aw =>
    (Done tt,
     {| pinecone := pinecone aw; session_state := session_state aw;
        app_trace := app_trace aw ++ [ev] |}).

(** A Streamlit element of the main area. *)
Definition ui (widget body : string) : App unit := app_emit (Core (EvUI widget body)).

Definition lift_outcome {A} (o : outcome A) : App A := fun aw => (to_result o, aw).

(** Runs a computation of the assistant: its events go to the end of the
    trace, in their order. *)
Definition lift_core {A} (m : M A) : App A :=
  fun aw =>
    let '(o, w) := run m {| indexes := pinecone aw; trace := [] |} in
    (to_result o,
     {| pinecone := indexes w; session_state := session_state aw;
        app_trace := app_trace aw ++ map Core (trace w) |}).

Definition read_session : App (gmap string string) :=
  fun aw => (Done (session_state aw), aw).

(** [st.session_state[key] = value] *)
Definition write_session (key value : string) : App unit :=
  fun aw =>
    (Done tt,
     {| pinecone := pinecone aw;
        session_state := <[key := value]> (session_state aw);
        app_trace := app_trace aw |}).

(** [for x in l: acc = body acc x] *)
Fixpoint app_for_each {A S} (l : list A) (body : S -> A -> App S) (acc : S) : App S :=
  match l with
  | [] => app_ret acc
  | x :: l' => acc' ← body acc x; app_for_each l' body acc'
  end.

(** More of [str]. *)
Module Text.

Definition dq : string := String (ascii_of_nat 34) EmptyString.

(** [s.endswith(suffix)] *)
Definition ends_with (suffix s : string) : bool :=
  let n := String.length s in
  let k := String.length suffix in
  (k <=? n)%nat && String.eqb (String.substring (n - k) k s) suffix.

(** [s.split(c)] for a one-character separator. *)
Fixpoint split_on (c : ascii) (s : string) : list string :=
  match s with
  | EmptyString => [EmptyString]
  | String a s' =>
      if Ascii.eqb a c then EmptyString :: split_on c s'
      else match split_on c s' with
           | seg :: segs => String a seg :: segs
           | [] => [String a EmptyString]
           end
  end.

(** [c in s] for a character. *)
Fixpoint has_char (c : ascii) (s : string) : bool :=
  match s with
  | EmptyString => false
  | String a s' => Ascii.eqb a c || has_char c s'
  end.


End Text.

(** ** The object store *)

(** The response of [get_object], of which [Body].read() is used, and the
    response of [list_objects_v2], whose ["Contents"] may be absent. *)
Record S3Response := { Body : string }.
Record S3Entry := { Key : string }.
Record S3Listing := { Contents : option (list S3Entry) }.

(** The answers of the object store, and [bytes.decode('utf-8')]. *)
Record ObjectStore := {
  get_object : string -> string -> outcome S3Response;
  list_objects_v2 : string -> string -> outcome S3Listing;
  decode_utf8 : string -> outcome string
}.

(** ** [informationpage.py]

    [init_s3_client] and [load_history_content] are memoised by
    [st.cache_resource] and [st.cache_data]; what is modelled is a call
    that finds nothing memoised. *)

Module InformationPage.

Record Image := { key : string; data : string }.
Record History := { content : string; images : list Image }.

Definition history_key : string := "History/f1_history.txt".
Definition images_prefix : string := "History/images/".

(** [key.endswith(('.jpg', '.png', '.jpeg'))] *)
Definition is_image_key (k : string) : bool :=
  Text.ends_with ".jpg" k || Text.ends_with ".png" k || Text.ends_with ".jpeg" k.

Definition custom_styles : string :=
  Str.nl +:+ "        <style>" +:+ Str.nl
  +:+ "        [data-testid=" +:+ Text.dq +:+ "stAppViewContainer" +:+ Text.dq
  +:+ "] {" +:+ Str.nl
  +:+ "            background: none; /* Clear the background image */" +:+ Str.nl
  +:+ "        }" +:+ Str.nl
  +:+ "        </style>" +:+ Str.nl
  +:+ "    ".

(** [image['key'].split('/')[-1]] *)
Definition caption_of (k : string) : string :=
  List.last (Text.split_on "/"%char k) EmptyString.

Definition load_failed : string :=
  "History data could not be loaded. Please check your S3 configuration or network connection.".

Section Page.

Variable svc : Services.
Variable store : ObjectStore.
Variable env : Environ.

Definition s3_get_object (bucket k : string) : App S3Response :=
  app_emit (EvS3GetObject bucket k);;
  lift_outcome (get_object store bucket k).

Definition s3_list_objects_v2 (bucket prefix : string) : App S3Listing :=
  app_emit (EvS3ListObjects bucket prefix);;
  lift_outcome (list_objects_v2 store bucket prefix).

(** The loop over [image_response['Contents']]. *)
Definition load_images (bucket : string) (objs : list S3Entry) : App (list Image) :=
  app_for_each objs
    (fun images obj =>
       if is_image_key (Key obj) then
         img_obj ← s3_get_object bucket (Key obj);
         app_ret (images ++ [ {| key := Key obj; data := Body img_obj |} ])
       else app_ret images)
    [].

Definition load_history_content (bucket : string) : App (option History) :=
  lift_core (init_s3_client svc env);;
  app_try_except
    (history_text ← s3_get_object bucket history_key;
     history_content ← lift_outcome (decode_utf8 store (Body history_text));
     image_response ← s3_list_objects_v2 bucket images_prefix;
     images ← match Contents image_response with
              | Some objs => load_images bucket objs
              | None => app_ret []
              end;
     app_ret (Some {| content := history_content; images := images |}))
    (fun e =>
       ui "error" ("Error loading history data: " +:+ failure_str e);;
       app_ret None).

Definition add_custom_styles : App unit := app_emit (EvHtml custom_styles).

Definition show_info : App unit :=
  add_custom_styles;;
  ui "title" "Formula 1 Encyclopedia";;
  ui "header" "F1 History";;
  history_data ← load_history_content "f1wikipedia";
  match history_data with
  | Some h =>
      app_emit (EvColumns [2; 1]%Z);;
      app_emit (EvColumnMarkdown 1 (content h));;
      app_for_each (images h)
        (fun _ image =>
           app_emit (EvColumnImage 2 (data image) (caption_of (key image))))
        tt
  | None => ui "warning" load_failed
  end.

End Page.

End InformationPage.

(** ** [landing.py] *)

Module Landing.

Record Page := { module : string; title : string; icon : string }.

(** The dict [PAGES], in the order of its entries. *)
Definition PAGES : list (string * Page) :=
  [ ("informationpage",
     {| module := "informationpage"; title := "Welcome to Paddock Pal"; icon := "🏠" |});
    ("paddockpal1",
     {| module := "paddockpal1"; title := "Paddock Pal Bot"; icon := "🤖" |});
    ("tracks_drivers",
     {| module := "tracks_drivers"; title := "Drivers and Tracks"; icon := "🏎️" |}) ].

(** [PAGES[key]] *)
Fixpoint page_of (pages : list (string * Page)) (k : string) : outcome Page :=
  match pages with
  | [] => Raised (KeyError k)
  | (k', page) :: pages' => if String.eqb k' k then Returned page else page_of pages' k
  end.

(** The label of a page's button: [f"{icon} {title}"]. *)
Definition label (page : Page) : string := icon page +:+ " " +:+ title page.

Section Run.

Variable g : Globals.
Variable svc : Services.
Variable store : ObjectStore.
Variable env : Environ.

(** What the user did: the buttons pressed, by label, and the state of the
    widgets of the assistant's page. *)
Variable clicked : string -> bool.
Variable query : string.
Variable submit : bool.

(** [tracks_drivers.show_drivers_tracks], whose module is not among the
    sources. *)
Variable show_drivers_tracks : App unit.

(** The sidebar loop over [PAGES.items()]. *)
Definition sidebar_buttons : App unit :=
  app_for_each PAGES
    (fun _ '(page_key, page_data) =>
       app_emit (EvSidebar "button" (label page_data));;
       if clicked (label page_data) then write_session "current_page" page_key
       else app_ret tt)
    tt.

(** [run] up to the title of the selected page. *)
Definition navigate : App string :=
  state ← read_session;
  (if decide ("current_page" ∉ dom state)
   then write_session "current_page" "informationpage"
   else app_ret tt);;
  app_emit (EvSidebar "title" "Navigation");;
  sidebar_buttons;;
  state ← read_session;
  current_page ← lift_outcome (subscript "current_page" (state !! "current_page"));
  page ← lift_outcome (page_of PAGES current_page);
  ui "title" (title page);;
  app_ret current_page.

Definition run : App unit :=
  current_page ← navigate;
  if String.eqb current_page "informationpage" then
    InformationPage.show_info svc store env
  else if String.eqb current_page "paddockpal1" then
    lift_core (show_paddockpal g svc query submit)
  else if String.eqb current_page "tracks_drivers" then
    show_drivers_tracks
  else app_ret tt.

End Run.

End Landing.

(** ** The console loop of [paddockpal1.py] *)


Section Console.

Variable g : Globals.
Variable svc : Services.




End Console.

(** Sample inputs for the pages. *)
Module Pages.

Definition fresh : AppWorld :=
  {| pinecone := list_to_set INDEX_NAMES; session_state := ∅; app_trace := [] |}.

(** A bucket with the history text, two pictures and a note. *)
Definition listing : list S3Entry :=
  [ {| Key := "History/images/" |};
    {| Key := "History/images/monza-1950.jpg" |};
    {| Key := "History/images/notes.txt" |};
    {| Key := "History/images/senna.png" |} ].

Definition store : ObjectStore :=
  {| get_object := fun _ k => Returned {| Body := "<" +:+ k +:+ ">" |};
     list_objects_v2 := fun _ _ => Returned {| Contents := Some listing |};
     decode_utf8 := fun b => Returned b |}.

(** The same bucket when the second picture cannot be read. *)
Definition flaky : ObjectStore :=
  {| get_object := fun _ k =>
       if String.eqb k "History/images/senna.png"
       then Raised (ServiceError "timeout")
       else Returned {| Body := "<" +:+ k +:+ ">" |};
     list_objects_v2 := fun _ _ => Returned {| Contents := Some listing |};
     decode_utf8 := fun b => Returned b |}.

(** A bucket without the history text. *)
Definition empty_bucket : ObjectStore :=
  {| get_object := fun _ _ => Raised (ServiceError "NoSuchKey");
     list_objects_v2 := fun _ _ => Returned {| Contents := None |};
     decode_utf8 := fun b => Returned b |}.

(** Services whose S3 client cannot be constructed. *)
Definition no_client : Services :=
  {| embedding_create := fun _ _ => Sample.embedded;
     index_query := fun index_name _ _ => Sample.answers index_name;
     chat_create := fun _ => Returned Sample.reply;
     boto3_client := fun _ _ _ => Raised (ServiceError "NoRegionError") |}.

Definition nothing_clicked (label : string) : bool := false.

Definition bot_clicked (label : string) : bool :=
  String.eqb label "🤖 Paddock Pal Bot".

End Pages.

(** Vocabulary of the statements about the pages. *)

(** [m] answers [r] in every world, adds [evs] to the trace and leaves the
    control plane and the session state alone. *)
Definition app_logs {A} (m : App A) (r : result A) (evs : list AppEvent) : Prop :=
  forall aw,
    run_app m aw
    = (r, {| pinecone := pinecone aw; session_state := session_state aw;
             app_trace := app_trace aw ++ evs |}).

(** The image a listed key gives when its object holds [body_of key]. *)
Definition image_of (body_of : string -> string) (k : string) : InformationPage.Image :=
  {| InformationPage.key := k; InformationPage.data := body_of k |}.

(** The body of the loop of [load_images]. *)
Definition image_step (store : ObjectStore) (bucket : string)
    (images : list InformationPage.Image) (obj : S3Entry)
    : App (list InformationPage.Image) :=
  if InformationPage.is_image_key (Key obj) then
    img_obj ← InformationPage.s3_get_object store bucket (Key obj);
    app_ret (images ++ [ {| InformationPage.key := Key obj;
                            InformationPage.data := Body img_obj |} ])
  else app_ret images.

(** The keys of a listing that [load_history_content] takes for images. *)
Definition image_keys (objs : list S3Entry) : list string :=
  List.filter InformationPage.is_image_key (map Key objs).


(** The call that constructs the S3 client in environment [env]. *)
Definition client_event (env : Environ) : AppEvent :=
  Core (EvBoto3Client "s3" (getenv env "AWS_ACCESS_KEY_ID")
          (getenv env "AWS_SECRET_ACCESS_KEY") (getenv env "AWS_REGION")).

(** The S3 client can be constructed in environment [env]. *)
Definition client_available (svc : Services) (env : Environ) : Prop :=
  boto3_client svc (getenv env "AWS_ACCESS_KEY_ID")
    (getenv env "AWS_SECRET_ACCESS_KEY") (getenv env "AWS_REGION")
  = Returned tt.

(** The body of the loop of [sidebar_buttons]. *)
Definition button_step (clicked : string -> bool) (_ : unit)
    (entry : string * Landing.Page) : App unit :=
  let '(page_key, page_data) := entry in
  app_emit (EvSidebar "button" (Landing.label page_data));;
  if clicked (Landing.label page_data)
  then write_session "current_page" page_key
  else app_ret tt.

(** The buttons pressed, in the order of the pages. *)
Definition pressed (clicked : string -> bool) (pages : list (string * Landing.Page))
    : list (string * Landing.Page) :=
  List.filter (fun entry => clicked (Landing.label (snd entry))) pages.

(** The page whose button was pressed, the last one in the order of
    [PAGES] when several were; without a press, the page of the session, the
    information page for a new session. *)
Definition selected_page (clicked : string -> bool) (state : gmap string string)
    : string :=
  match last (pressed clicked Landing.PAGES) with
  | Some entry => fst entry
  | None => default "informationpage" (state !! "current_page")
  end.


(** * Properties *)

(** ** The monad *)

Lemma logs_ret {A} (a : A) : logs (ret a) (Returned a) [].
Proof. intros [ix tr]. unfold run, ret. simpl. by rewrite app_nil_r. Qed.

Lemma logs_mret {A} (a : A) : logs (mret a) (Returned a) [].
Proof. apply logs_ret. Qed.

Lemma logs_raise {A} (e : exn) : logs (@raise A e) (Raised e) [].
Proof. intros [ix tr]. unfold run, raise. simpl. by rewrite app_nil_r. Qed.

Lemma logs_lift {A} (o : outcome A) : logs (lift o) o [].
Proof. intros [ix tr]. unfold run, lift. simpl. by rewrite app_nil_r. Qed.

Lemma logs_emit (ev : Event) : logs (emit ev) (Returned tt) [ev].
Proof. by intros w. Qed.

Lemma logs_print (line : string) : logs (print line) (Returned tt) [EvPrint line].
Proof. by intros w. Qed.

Lemma logs_bind {A B} (m : M A) (k : A -> M B) a evs1 o evs2 :
  logs m (Returned a) evs1 -> logs (k a) o evs2 ->
  logs (m ≫= k) o (evs1 ++ evs2).
Proof.
  intros Hm Hk w. unfold logs, mbind, M_bind, bind, run in *.
  rewrite Hm, Hk. simpl. by rewrite app_assoc.
Qed.

Lemma logs_bind_raised {A B} (m : M A) (k : A -> M B) e evs :
  logs m (Raised e) evs -> logs (m ≫= k) (Raised e) evs.
Proof.
  intros Hm w. unfold logs, mbind, M_bind, bind, run in *. by rewrite Hm.
Qed.

Lemma logs_try_returned {A} (m : M A) h a evs :
  logs m (Returned a) evs -> logs (try_except m h) (Returned a) evs.
Proof. intros Hm w. unfold logs, try_except, run in *. by rewrite Hm. Qed.

Lemma logs_try_raised {A} (m : M A) h e evs1 o evs2 :
  logs m (Raised e) evs1 -> logs (h e) o evs2 ->
  logs (try_except m h) o (evs1 ++ evs2).
Proof.
  intros Hm Hh w. unfold logs, try_except, run in *.
  rewrite Hm, Hh. simpl. by rewrite app_assoc.
Qed.


(** ** The stable descending sort *)

Section SortedFacts.

Context {A : Type} (key : A -> Q).
Implicit Types (x y : A) (l : list A) (s : Q).

Lemma insert_desc_perm x l : insert_desc key x l ≡ₚ x :: l.
Proof.
  induction l as [|y l IH]; simpl; [done|].
  destruct (Qle_bool (key y) (key x)); [done|].
  rewrite IH. apply Permutation_swap.
Qed.

Lemma sorted_reverse_perm l : sorted_reverse key l ≡ₚ l.
Proof.
  induction l as [|x l IH]; [done|].
  unfold sorted_reverse in *. simpl. by rewrite insert_desc_perm, IH.
Qed.

Lemma sorted_reverse_length l : length (sorted_reverse key l) = length l.
Proof. by rewrite sorted_reverse_perm. Qed.

Lemma insert_desc_descending x l :
  descending key l -> descending key (insert_desc key x l).
Proof.
  unfold descending.
  induction l as [|y l IH]; simpl; intros Hs.
  - repeat constructor.
  - apply StronglySorted_cons in Hs as [Hy Hl].
    destruct (Qle_bool (key y) (key x)) eqn:E.
    + apply Qle_bool_iff in E.
      apply StronglySorted_cons. split; [|by apply StronglySorted_cons].
      constructor; [done|].
      eapply Forall_impl; [exact Hy|]. intros z Hz. simpl in Hz.
      by apply Qle_trans with (key y).
    + assert (key x < key y)%Q as Hlt.
      { apply Qnot_le_lt. intros Hle. apply Qle_bool_iff in Hle. congruence. }
      apply StronglySorted_cons. split; [|by apply IH].
      rewrite insert_desc_perm. constructor; [|done].
      by apply Qlt_le_weak.
Qed.

Lemma sorted_reverse_descending l : descending key (sorted_reverse key l).
Proof.
  induction l as [|x l IH]; [constructor|].
  by apply insert_desc_descending.
Qed.

Lemma insert_desc_with_key s x l :
  with_key key s (insert_desc key x l) = with_key key s (x :: l).
Proof.
  unfold with_key.
  induction l as [|y l IH]; simpl; [done|].
  destruct (Qle_bool (key y) (key x)) eqn:E; [done|].
  simpl. rewrite IH. simpl.
  destruct (Qeq_bool (key y) s) eqn:Ey, (Qeq_bool (key x) s) eqn:Ex; try done.
  apply Qeq_bool_iff in Ey, Ex.
  assert (Qle_bool (key y) (key x) = true); [|congruence].
  apply Qle_bool_iff. rewrite Ey, Ex. apply Qle_refl.
Qed.

(** Stability: items with the same key come out in the order they went
    in. *)
Lemma sorted_reverse_stable s l :
  with_key key s (sorted_reverse key l) = with_key key s l.
Proof.
  induction l as [|x l IH]; [done|].
  unfold sorted_reverse in *. simpl foldr.
  rewrite insert_desc_with_key. unfold with_key in *. simpl. by rewrite IH.
Qed.

Lemma with_key_In s x l :
  In x (with_key key s l) <-> In x l /\ (key x == s)%Q.
Proof. unfold with_key. rewrite filter_In. by rewrite Qeq_bool_iff. Qed.

Lemma descending_head_max x y l :
  descending key (x :: l) -> In y (x :: l) -> (key y <= key x)%Q.
Proof.
  intros Hs [->|Hy]; [apply Qle_refl|].
  apply StronglySorted_cons in Hs as [Hx _].
  rewrite Forall_forall in Hx. apply Hx. by apply list_elem_of_In.
Qed.

Lemma with_key_head x l : with_key key (key x) (x :: l) = x :: with_key key (key x) l.
Proof. unfold with_key. simpl. by rewrite (proj2 (Qeq_bool_iff _ _) (Qeq_refl _)). Qed.

(** Two descending lists with the same items under every key are the
    same list. *)
Lemma descending_stable_unique l1 l2 :
  descending key l1 -> descending key l2 ->
  (forall s, with_key key s l1 = with_key key s l2) ->
  l1 = l2.
Proof.
  revert l2. induction l1 as [|x l1 IH]; intros [|y l2] H1 H2 Hk.
  - done.
  - specialize (Hk (key y)). by rewrite with_key_head in Hk.
  - specialize (Hk (key x)). by rewrite with_key_head in Hk.
  - assert (key x <= key y)%Q as Hxy.
    { assert (In x (with_key key (key x) (y :: l2))) as Hin.
      { rewrite <- Hk, with_key_head. by left. }
      apply with_key_In in Hin as [Hin _].
      by apply (descending_head_max y x l2). }
    assert (key y <= key x)%Q as Hyx.
    { assert (In y (with_key key (key y) (x :: l1))) as Hin.
      { rewrite Hk, with_key_head. by left. }
      apply with_key_In in Hin as [Hin _].
      by apply (descending_head_max x y l1). }
    assert (key y == key x)%Q as Heq by by apply Qle_antisym.
    assert (x = y) as ->.
    { pose proof (Hk (key x)) as Hx. rewrite with_key_head in Hx.
      unfold with_key in Hx. simpl in Hx.
      rewrite (proj2 (Qeq_bool_iff _ _) Heq) in Hx. by inversion Hx. }
    f_equal. apply IH.
    + by apply StronglySorted_cons in H1 as [_ ?].
    + by apply StronglySorted_cons in H2 as [_ ?].
    + intros s. specialize (Hk s). unfold with_key in *. simpl in Hk.
      destruct (Qeq_bool (key y) s); [by inversion Hk|done].
Qed.

(** [sorted_reverse] computes the one list a stable descending sort can
    return. *)
Lemma sorted_reverse_unique l l' :
  descending key l' ->
  (forall s, with_key key s l' = with_key key s l) ->
  l' = sorted_reverse key l.
Proof.
  intros Hd Hk. apply descending_stable_unique; [done|apply sorted_reverse_descending|].
  intros s. by rewrite sorted_reverse_stable.
Qed.




End SortedFacts.

(** ** The keyword filter *)

Lemma match_text_metadata m md :
  metadata m = Some md -> match_text m = Returned (default "" (text md)).
Proof. intros H. unfold match_text. by rewrite H. Qed.

Lemma contains_keyword_nil m : contains_keyword [] m = false.
Proof. unfold contains_keyword. by destruct (metadata m). Qed.


Lemma any_keyword_contains keywords m :
  has_metadata m -> any_keyword keywords m = Returned (contains_keyword keywords m).
Proof.
  intros [md Hmd]. unfold contains_keyword. rewrite Hmd.
  induction keywords as [|kw kws IH]; simpl; [done|].
  rewrite (match_text_metadata m md Hmd). simpl.
  by destruct (Str.contains (Str.lower kw) (Str.lower (default "" (text md)))).
Qed.

Lemma any_keyword_no_metadata kw kws m :
  metadata m = None -> any_keyword (kw :: kws) m = Raised (KeyError "metadata").
Proof. intros H. simpl. unfold match_text. by rewrite H. Qed.

Lemma keyword_filter_nil ms : keyword_filter [] ms = Returned [].
Proof. induction ms as [|m ms IH]; simpl; [done|]. by rewrite IH. Qed.









(** Without keywords the merge is the identity. *)
Lemma merge_keyword_first_nil ms : merge_keyword_first [] ms = ms.
Proof.
  unfold merge_keyword_first.
  assert (List.filter (contains_keyword []) ms = []) as ->.
  { induction ms as [|m ms IH]; simpl; [done|]. by rewrite contains_keyword_nil. }
  simpl. induction ms as [|m ms IH]; simpl; [done|].
  rewrite contains_keyword_nil. simpl. by rewrite IH.
Qed.

(** ** One index query *)

Lemma logs_eq {A} (m : M A) o evs evs' :
  logs m o evs -> evs = evs' -> logs m o evs'.
Proof. by intros H <-. Qed.

Ltac logs_step :=
  first
    [ apply logs_ret | apply logs_mret | apply logs_raise | apply logs_lift
    | apply logs_emit | apply logs_print
    | eapply logs_bind ].

Lemma index_hosts_known index_name :
  In index_name INDEX_NAMES ->
  exists host, INDEX_HOSTS !! index_name = Some host /\ Str.truthy host = true.
Proof.
  simpl. intros [<-|[<-|[<-|[]]]]; eexists; split;
    try (vm_compute; reflexivity); reflexivity.
Qed.

Section QueryFacts.

Variable g : Globals.
Variable svc : Services.
Implicit Types (index_name host : string) (emb : Embedding).

Lemma get_pinecone_index_logs index_name host :
  truthy_env (PINECONE_ENVIRONMENT g) = true ->
  INDEX_HOSTS !! index_name = Some host -> Str.truthy host = true ->
  logs (get_pinecone_index g index_name)
       (Returned {| handle_name := index_name; handle_host := host |})
       [ EvPrint ("Connecting to Pinecone index at host: " +:+ host);
         EvIndexHandle index_name host ].
Proof.
  intros Henv Hhost Ht. unfold get_pinecone_index.
  rewrite Henv, Hhost. simpl. rewrite Ht. simpl.
  eapply logs_eq; [repeat logs_step|done].
Qed.

Lemma get_pinecone_index_unset index_name :
  truthy_env (PINECONE_ENVIRONMENT g) = false ->
  exists e, logs (get_pinecone_index g index_name) (Raised e) [].
Proof.
  intros Henv. unfold get_pinecone_index. rewrite Henv. simpl.
  eexists. apply logs_raise.
Qed.

Lemma get_pinecone_index_unknown index_name :
  truthy_env (PINECONE_ENVIRONMENT g) = true ->
  truthy_env (INDEX_HOSTS !! index_name) = false ->
  exists e, logs (get_pinecone_index g index_name) (Raised e) [].
Proof.
  intros Henv Hhost. unfold get_pinecone_index. rewrite Henv. simpl.
  rewrite Hhost. simpl. eexists. apply logs_raise.
Qed.

(** The query goes through and every match can be tested. *)
Lemma query_pinecone_merged index_name host emb keywords top_k response kms :
  truthy_env (PINECONE_ENVIRONMENT g) = true ->
  INDEX_HOSTS !! index_name = Some host -> Str.truthy host = true ->
  index_query svc index_name emb top_k = Returned response ->
  keyword_filter (default [] keywords) (default [] (matches response)) = Returned kms ->
  logs (query_pinecone g svc index_name emb keywords top_k)
       (Returned (take top_k
          (kms ++ List.filter (fun m => not_in m kms) (default [] (matches response)))))
       (query_events index_name host emb top_k).
Proof.
  intros Henv Hhost Ht Hq Hk. unfold query_pinecone.
  apply logs_try_returned.
  eapply logs_eq.
  - eapply logs_bind; [by apply get_pinecone_index_logs|].
    eapply logs_bind.
    { unfold index_query_call. simpl. eapply logs_bind; [apply logs_emit|].
      rewrite Hq. apply logs_lift. }
    eapply logs_bind; [rewrite Hk; apply logs_lift|].
    apply logs_ret.
  - done.
Qed.

(** The query itself fails: the handler answers the empty list. *)
Lemma query_pinecone_failed index_name host emb keywords top_k e :
  truthy_env (PINECONE_ENVIRONMENT g) = true ->
  INDEX_HOSTS !! index_name = Some host -> Str.truthy host = true ->
  index_query svc index_name emb top_k = Raised e ->
  logs (query_pinecone g svc index_name emb keywords top_k) (Returned [])
       (query_events index_name host emb top_k ++
        [EvPrint ("Error querying index " +:+ index_name +:+ ": " +:+ exn_str e)]).
Proof.
  intros Henv Hhost Ht Hq. unfold query_pinecone.
  eapply logs_try_raised.
  - eapply logs_eq.
    + eapply logs_bind; [by apply get_pinecone_index_logs|].
      apply logs_bind_raised.
      unfold index_query_call. simpl. eapply logs_bind; [apply logs_emit|].
      rewrite Hq. apply logs_lift.
    + done.
  - eapply logs_eq; [repeat logs_step|done].
Qed.

(** A match without metadata stops the keyword filter: the handler
    answers the empty list. *)
Lemma query_pinecone_bad_match index_name host emb keywords top_k response e :
  truthy_env (PINECONE_ENVIRONMENT g) = true ->
  INDEX_HOSTS !! index_name = Some host -> Str.truthy host = true ->
  index_query svc index_name emb top_k = Returned response ->
  keyword_filter (default [] keywords) (default [] (matches response)) = Raised e ->
  logs (query_pinecone g svc index_name emb keywords top_k) (Returned [])
       (query_events index_name host emb top_k ++
        [EvPrint ("Error querying index " +:+ index_name +:+ ": " +:+ exn_str e)]).
Proof.
  intros Henv Hhost Ht Hq Hk. unfold query_pinecone.
  eapply logs_try_raised.
  - eapply logs_eq.
    + eapply logs_bind; [by apply get_pinecone_index_logs|].
      eapply logs_bind.
      { unfold index_query_call. simpl. eapply logs_bind; [apply logs_emit|].
        rewrite Hq. apply logs_lift. }
      apply logs_bind_raised. rewrite Hk. apply logs_lift.
    + done.
  - eapply logs_eq; [repeat logs_step|done].
Qed.

(** No connection is made: nothing is queried. *)
Lemma query_pinecone_unconnected index_name emb keywords top_k :
  truthy_env (PINECONE_ENVIRONMENT g) = false \/
  truthy_env (INDEX_HOSTS !! index_name) = false ->
  exists e,
    logs (query_pinecone g svc index_name emb keywords top_k) (Returned [])
         [EvPrint ("Error querying index " +:+ index_name +:+ ": " +:+ exn_str e)].
Proof.
  intros H.
  assert (exists e, logs (get_pinecone_index g index_name) (Raised e) [])
    as [e He].
  { destruct (truthy_env (PINECONE_ENVIRONMENT g)) eqn:Henv.
    - destruct H as [H|H]; [done|]. by apply get_pinecone_index_unknown.
    - by apply get_pinecone_index_unset. }
  exists e. unfold query_pinecone.
  eapply logs_eq.
  - eapply logs_try_raised; [by apply logs_bind_raised|].
    repeat logs_step.
  - done.
Qed.

(** [query_pinecone] never raises and never returns more than [top_k]
    matches. *)
Lemma query_pinecone_total index_name emb keywords top_k :
  exists out evs,
    logs (query_pinecone g svc index_name emb keywords top_k) (Returned out) evs /\
    length out <= top_k.
Proof.
  destruct (truthy_env (PINECONE_ENVIRONMENT g)) eqn:Henv.
  2:{ destruct (query_pinecone_unconnected index_name emb keywords top_k)
        as [e He]; [by left|].
      eexists [], _. split; [exact He|simpl; lia]. }
  destruct (truthy_env (INDEX_HOSTS !! index_name)) eqn:Hh.
  2:{ destruct (query_pinecone_unconnected index_name emb keywords top_k)
        as [e He]; [by right|].
      eexists [], _. split; [exact He|simpl; lia]. }
  destruct (INDEX_HOSTS !! index_name) as [host|] eqn:Hhost; [|done].
  simpl in Hh.
  destruct (index_query svc index_name emb top_k) as [response|e] eqn:Hq.
  2:{ eexists [], _. split; [by eapply query_pinecone_failed|simpl; lia]. }
  destruct (keyword_filter (default [] keywords) (default [] (matches response)))
    as [kms|e] eqn:Hk.
  2:{ eexists [], _. split; [by eapply query_pinecone_bad_match|simpl; lia]. }
  eexists _, _. split; [by eapply query_pinecone_merged|].
  rewrite length_take. lia.
Qed.


End QueryFacts.

(** ** The orchestrator *)

Section FetchFacts.

Variable g : Globals.
Variable svc : Services.
Implicit Types (index_name query : string) (emb : Embedding).

(** A computation that [logs] answers the same in every world. *)
Lemma logs_agree {A} (m : M A) o evs w r :
  logs m o evs -> fst (run m w) = Returned r -> o = Returned r.
Proof. intros Hm Hr. by rewrite Hm in Hr. Qed.

Lemma generate_embeddings_failed query e :
  embedding_create svc query embedding_model = Raised e ->
  logs (generate_embeddings_openai svc query) (Returned None)
       [ EvEmbeddingCreate query embedding_model;
         EvPrint ("Error generating embeddings with OpenAI: " +:+ exn_str e) ].
Proof.
  intros He. unfold generate_embeddings_openai.
  eapply logs_eq.
  - eapply logs_try_raised.
    + eapply logs_bind; [apply logs_emit|].
      apply logs_bind_raised. rewrite He. apply logs_lift.
    + repeat logs_step.
  - done.
Qed.

(** [generate_embeddings_openai] never raises and queries no index. *)
Lemma generate_embeddings_total query :
  exists e evs,
    logs (generate_embeddings_openai svc query) (Returned e) evs /\
    List.filter is_index_query evs = [].
Proof.
  destruct (embedding_create svc query embedding_model) as [response|x] eqn:Hc.
  - destruct (d ← subscript "data" (data response);
              item ← first_item d;
              subscript "embedding" (embedding item)) as [e|x] eqn:Hx.
    + exists (Some e), [EvEmbeddingCreate query embedding_model]. split; [|done].
      unfold generate_embeddings_openai.
      apply logs_try_returned. eapply logs_eq.
      * eapply logs_bind; [apply logs_emit|].
        eapply logs_bind; [rewrite Hc; apply logs_lift|].
        eapply logs_bind; [rewrite Hx; apply logs_lift|]. apply logs_ret.
      * done.
    + exists None, [EvEmbeddingCreate query embedding_model;
        EvPrint ("Error generating embeddings with OpenAI: " +:+ exn_str x)].
      split; [|done]. unfold generate_embeddings_openai. eapply logs_eq.
      * eapply logs_try_raised.
        -- eapply logs_bind; [apply logs_emit|].
           eapply logs_bind; [rewrite Hc; apply logs_lift|].
           apply logs_bind_raised. rewrite Hx. apply logs_lift.
        -- repeat logs_step.
      * done.
  - eexists None, _. split; [by apply generate_embeddings_failed|done].
Qed.

(** With the empty keyword list the per-index result is the index's
    answer, cut at [top_k]. *)
Lemma query_pinecone_no_keywords index_name host emb top_k :
  truthy_env (PINECONE_ENVIRONMENT g) = true ->
  INDEX_HOSTS !! index_name = Some host -> Str.truthy host = true ->
  exists tail,
    logs (query_pinecone g svc index_name emb (Some []) top_k)
         (Returned (take top_k (index_matches svc index_name emb top_k)))
         (query_events index_name host emb top_k ++ tail) /\
    List.filter is_index_query tail = [].
Proof.
  intros Henv Hhost Ht. unfold index_matches.
  destruct (index_query svc index_name emb top_k) as [response|e] eqn:Hq.
  - exists []. split; [|done]. rewrite app_nil_r.
    pose proof (query_pinecone_merged g svc index_name host emb (Some []) top_k
                  response [] Henv Hhost Ht Hq (keyword_filter_nil _)) as H.
    simpl in H.
    assert (List.filter (fun m => not_in m []) (default [] (matches response))
            = default [] (matches response)) as Hid.
    { apply forallb_filter_id. by apply forallb_forall. }
    by rewrite Hid in H.
  - eexists. rewrite take_nil. split; [by eapply query_pinecone_failed|done].
Qed.

Lemma search_index_logs index_name emb all_results results evs :
  logs (query_pinecone g svc index_name emb (Some []) 10) (Returned results) evs ->
  logs (search_index g svc emb all_results index_name)
       (Returned (all_results ++ results))
       (EvPrint ("Searching index: " +:+ index_name +:+ "...") :: evs
        ++ [EvPrintResults index_name results]).
Proof.
  intros Hq. unfold search_index.
  eapply logs_eq.
  - eapply logs_bind; [apply logs_print|].
    eapply logs_bind; [exact Hq|].
    eapply logs_bind; [apply logs_emit|]. apply logs_ret.
  - simpl. by rewrite ?app_nil_r.
Qed.

(** The loop visits the three indexes in order and appends what each
    returns. *)
Lemma gather_results_logs emb r1 r2 r3 evs1 evs2 evs3 :
  logs (query_pinecone g svc "sporting-regulations-embeddings" emb (Some []) 10)
       (Returned r1) evs1 ->
  logs (query_pinecone g svc "technical-regulations-embeddings" emb (Some []) 10)
       (Returned r2) evs2 ->
  logs (query_pinecone g svc "financial-regulations-embeddings" emb (Some []) 10)
       (Returned r3) evs3 ->
  logs (gather_results g svc emb) (Returned (r1 ++ r2 ++ r3))
       ((EvPrint "Searching index: sporting-regulations-embeddings..." :: evs1
           ++ [EvPrintResults "sporting-regulations-embeddings" r1]) ++
        (EvPrint "Searching index: technical-regulations-embeddings..." :: evs2
           ++ [EvPrintResults "technical-regulations-embeddings" r2]) ++
        (EvPrint "Searching index: financial-regulations-embeddings..." :: evs3
           ++ [EvPrintResults "financial-regulations-embeddings" r3])).
Proof.
  intros H1 H2 H3. unfold gather_results, INDEX_NAMES. simpl for_each.
  replace (r1 ++ r2 ++ r3) with ((([] ++ r1) ++ r2) ++ r3)
    by (simpl; by rewrite app_assoc).
  eapply logs_eq.
  - eapply logs_bind; [by apply search_index_logs|].
    eapply logs_bind; [by apply search_index_logs|].
    eapply logs_bind; [by apply search_index_logs|].
    apply logs_ret.
  - simpl. by rewrite ?app_nil_r, <- ?app_assoc.
Qed.

Lemma gather_results_total emb :
  exists all_results evs,
    logs (gather_results g svc emb) (Returned all_results) evs.
Proof.
  destruct (query_pinecone_total g svc "sporting-regulations-embeddings" emb
              (Some []) 10) as (r1 & evs1 & H1 & _).
  destruct (query_pinecone_total g svc "technical-regulations-embeddings" emb
              (Some []) 10) as (r2 & evs2 & H2 & _).
  destruct (query_pinecone_total g svc "financial-regulations-embeddings" emb
              (Some []) 10) as (r3 & evs3 & H3 & _).
  eexists _, _. by apply gather_results_logs.
Qed.

(** A falsy embedding ends the function before the loop. *)
Lemma fetch_falsy query e evs :
  logs (generate_embeddings_openai svc query) (Returned e) evs ->
  truthy_embedding e = false ->
  logs (fetch_relevant_documents g svc query) (Returned [])
       (EvPrint ("Processing query: " +:+ query) :: evs
        ++ [EvPrint "Failed to generate query embeddings."]).
Proof.
  intros He Hf. unfold fetch_relevant_documents.
  eapply logs_eq.
  - eapply logs_bind; [apply logs_print|].
    eapply logs_bind; [exact He|].
    rewrite Hf. simpl.
    eapply logs_bind; [apply logs_print|]. apply logs_ret.
  - simpl. by rewrite ?app_nil_r.
Qed.

Lemma fetch_ranked query emb evs0 all_results evs1 :
  logs (generate_embeddings_openai svc query) (Returned (Some emb)) evs0 ->
  emb <> [] ->
  logs (gather_results g svc emb) (Returned all_results) evs1 ->
  logs (fetch_relevant_documents g svc query) (Returned (rank_results all_results))
       (EvPrint ("Processing query: " +:+ query) :: evs0 ++ evs1).
Proof.
  intros He Hne Hg. unfold fetch_relevant_documents.
  eapply logs_eq.
  - eapply logs_bind; [apply logs_print|].
    eapply logs_bind; [exact He|].
    destruct emb as [|x emb']; [done|]. simpl.
    eapply logs_bind; [exact Hg|]. apply logs_ret.
  - simpl. by rewrite ?app_nil_r.
Qed.

Lemma rank_results_length all_results :
  length (rank_results all_results) = min 5 (length all_results).
Proof.
  unfold rank_results. by rewrite length_take, sorted_reverse_length.
Qed.

(** [fetch_relevant_documents] never raises and returns at most five
    matches, whatever the services answer. *)
Lemma fetch_relevant_documents_total query :
  exists out evs,
    logs (fetch_relevant_documents g svc query) (Returned out) evs /\
    length out <= 5.
Proof.
  destruct (generate_embeddings_total query) as (e & evs0 & He & _).
  destruct (truthy_embedding e) eqn:Ht.
  - destruct e as [[|x emb']|]; try done.
    destruct (gather_results_total (x :: emb')) as (all_results & evs1 & Hg).
    eexists _, _. split; [by eapply fetch_ranked|].
    rewrite rank_results_length. lia.
  - eexists _, _. split; [by eapply fetch_falsy|]. simpl. lia.
Qed.

End FetchFacts.

(** ** Embedding failure *)

(** C3. If the embedding call fails, [fetch_relevant_documents] returns the
    empty list and does not raise: it prints the error and the failure
    notice, and does nothing else. *)
Theorem C3_embedding_failure_returns_empty g svc query e w :
  embedding_create svc query embedding_model = Raised e ->
  run (fetch_relevant_documents g svc query) w
  = (Returned [],
     {| indexes := indexes w;
        trace := trace w ++
          [ EvPrint ("Processing query: " +:+ query);
            EvEmbeddingCreate query embedding_model;
            EvPrint ("Error generating embeddings with OpenAI: " +:+ exn_str e);
            EvPrint "Failed to generate query embeddings." ] |}).
Proof.
  intros He.
  apply (fetch_falsy g svc query None _ (generate_embeddings_failed svc query e He)).
  done.
Qed.

Lemma C3_embedding_failure_witness :
  run (fetch_relevant_documents Sample.globals (Sample.services Sample.unavailable)
         Sample.query) Sample.empty_world
  = (Returned [],
     {| indexes := ∅;
        trace :=
          [ EvPrint "Processing query: What are the minimum weight regulations?";
            EvEmbeddingCreate Sample.query embedding_model;
            EvPrint "Error generating embeddings with OpenAI: rate limit";
            EvPrint "Failed to generate query embeddings." ] |}).
Proof.
  apply (C3_embedding_failure_returns_empty Sample.globals
           (Sample.services Sample.unavailable) Sample.query
           (ServiceError "rate limit") Sample.empty_world).
  reflexivity.
Defined.

(** C10. Any falsy embedding result ends [fetch_relevant_documents] early:
    whether [generate_embeddings_openai] returned [None] or an empty
    vector, the result is the empty list and no index is queried. *)
Theorem C10_falsy_embedding_returns_empty g svc query e w0 w :
  fst (run (generate_embeddings_openai svc query) w0) = Returned e ->
  e = None \/ e = Some [] ->
  exists evs,
    run (fetch_relevant_documents g svc query) w
    = (Returned [], {| indexes := indexes w; trace := trace w ++ evs |}) /\
    List.filter is_index_query evs = [].
Proof.
  intros He Hfalsy.
  destruct (generate_embeddings_total svc query) as (e' & evs0 & Hlogs & Hnone).
  assert (e' = e) as ->.
  { pose proof (logs_agree _ _ _ _ _ Hlogs He) as Heq. by inversion Heq. }
  eexists. split.
  - apply (fetch_falsy g svc query e evs0 Hlogs). by destruct Hfalsy as [->| ->].
  - simpl. rewrite List.filter_app, Hnone. done.
Qed.

Lemma C10_falsy_embedding_witness :
  exists evs,
    run (fetch_relevant_documents Sample.globals
           (Sample.services Sample.embedded_empty) Sample.query) Sample.empty_world
    = (Returned [], {| indexes := ∅; trace := [] ++ evs |}) /\
    List.filter is_index_query evs = [].
Proof.
  apply (C10_falsy_embedding_returns_empty Sample.globals
           (Sample.services Sample.embedded_empty) Sample.query (Some [])
           Sample.empty_world Sample.empty_world).
  - reflexivity.
  - right. reflexivity.
Defined.

(** ** Answer synthesis *)


(** A blank question is refused before anything is fetched. *)
Example show_paddockpal_blank :
  run (show_paddockpal Sample.globals (Sample.services Sample.embedded) "  " true)
    Sample.empty_world
  = (Returned tt,
     {| indexes := ∅;
        trace :=
          [ EvUI "write"
              "Ask questions about Formula 1 regulations and get accurate answers!";
            EvUI "text_input" "Enter your question:";
            EvUI "button" "Submit";
            EvUI "warning" "Please enter a valid question." ] |}).
Proof. vm_compute. reflexivity. Qed.

(** On the sample the page ends by writing the stripped answer of the
    chat completion. *)
Example show_paddockpal_sample :
  last (trace (snd (run (show_paddockpal Sample.globals
                           (Sample.services Sample.embedded) Sample.query true)
                      Sample.empty_world)))
  = Some (EvUI "write" "798 kg.").
Proof. vm_compute. reflexivity. Qed.

(** C6. With an empty context [generate_answer_with_openai] returns the
    fixed string and leaves the world as it found it; the trace in
    particular gains no call of the chat-completion API. *)
Theorem C6_empty_context_fixed_answer svc query w :
  run (generate_answer_with_openai svc "" query) w
  = (Returned "No relevant information found in the database.", w) /\
  List.filter is_chat_call
    (trace (snd (run (generate_answer_with_openai svc "" query) w)))
  = List.filter is_chat_call (trace w).
Proof.
  assert (run (generate_answer_with_openai svc "" query) w
          = (Returned no_information, w)) as Hrun.
  { unfold generate_answer_with_openai. simpl. reflexivity. }
  split; [exact Hrun|]. by rewrite Hrun.
Qed.

(** ** Index provisioning *)

Ltac run_control_plane :=
  unfold ensure_index_exists, list_indexes_names, create_index,
    register_index, read_indexes, print, emit, run, mbind, M_bind, bind;
  simpl.

Lemma ensure_index_exists_absent g index_name dimension metric w :
  index_name ∉ indexes w ->
  run (ensure_index_exists g index_name dimension metric) w
  = (Returned tt,
     {| indexes := {[index_name]} ∪ indexes w;
        trace := trace w ++
          [ EvListIndexes;
            EvCreateIndex index_name dimension metric "aws" (PINECONE_ENVIRONMENT g);
            EvPrint ("Created index: " +:+ index_name) ] |}).
Proof.
  intros Hout. run_control_plane.
  destruct (decide (index_name ∉ indexes w)) as [_|Hin]; [|done]. simpl.
  destruct (decide (index_name ∈ indexes w)) as [Hin|_]; [done|].
  simpl. by rewrite <- !app_assoc.
Qed.

Lemma ensure_index_exists_present g index_name dimension metric w :
  index_name ∈ indexes w ->
  run (ensure_index_exists g index_name dimension metric) w
  = (Returned tt,
     {| indexes := indexes w;
        trace := trace w ++
          [ EvListIndexes;
            EvPrint ("Index " +:+ index_name +:+ " already exists.") ] |}).
Proof.
  intros Hin. run_control_plane.
  destruct (decide (index_name ∉ indexes w)) as [Hout|_]; [done|]. simpl.
  by rewrite <- !app_assoc.
Qed.

(** Provisioning one index never raises, adds at most that index and
    renders nothing. *)
Lemma ensure_index_exists_total g index_name dimension metric w :
  exists evs,
    run (ensure_index_exists g index_name dimension metric) w
    = (Returned tt,
       {| indexes := {[index_name]} ∪ indexes w; trace := trace w ++ evs |}) /\
    List.filter is_ui evs = [].
Proof.
  destruct (decide (index_name ∈ indexes w)) as [Hin|Hout].
  - exists [EvListIndexes; EvPrint ("Index " +:+ index_name +:+ " already exists.")].
    rewrite ensure_index_exists_present by done. split; [|done].
    do 2 f_equal. set_solver.
  - exists [EvListIndexes;
            EvCreateIndex index_name dimension metric "aws" (PINECONE_ENVIRONMENT g);
            EvPrint ("Created index: " +:+ index_name)].
    by rewrite ensure_index_exists_absent by done.
Qed.

Lemma run_bind {A B} (m : M A) (k : A -> M B) w :
  run (m ≫= k) w
  = match run m w with
    | (Returned a, w') => run (k a) w'
    | (Raised e, w') => (Raised e, w')
    end.
Proof. done. Qed.

Lemma ensure_all_indexes_total g w :
  exists evs,
    run (ensure_all_indexes g) w
    = (Returned tt,
       {| indexes := list_to_set INDEX_NAMES ∪ indexes w; trace := trace w ++ evs |}) /\
    List.filter is_ui evs = [].
Proof.
  unfold ensure_all_indexes, INDEX_NAMES. simpl for_each.
  destruct (ensure_index_exists_total g "sporting-regulations-embeddings"
              default_dimension default_metric w) as (evs1 & E1 & Hu1).
  rewrite run_bind, E1.
  destruct (ensure_index_exists_total g "technical-regulations-embeddings"
              default_dimension default_metric
              {| indexes := {["sporting-regulations-embeddings"]} ∪ indexes w;
                 trace := trace w ++ evs1 |}) as (evs2 & E2 & Hu2).
  rewrite run_bind, E2. simpl indexes. simpl trace.
  destruct (ensure_index_exists_total g "financial-regulations-embeddings"
              default_dimension default_metric
              {| indexes := {["technical-regulations-embeddings"]} ∪
                            ({["sporting-regulations-embeddings"]} ∪ indexes w);
                 trace := (trace w ++ evs1) ++ evs2 |}) as (evs3 & E3 & Hu3).
  rewrite run_bind, E3. simpl indexes. simpl trace.
  exists (evs1 ++ evs2 ++ evs3). split.
  - unfold run, ret. f_equal. f_equal; [|by rewrite !app_assoc].
    simpl. set_solver.
  - by rewrite !List.filter_app, Hu1, Hu2, Hu3.
Qed.

(** C7. Index provisioning is idempotent.  From a state where the index is
    absent, two runs of [ensure_index_exists] in succession (with the
    default dimension 1536 and metric cosine) make exactly one create call,
    with that dimension and metric, and one "already exists" observation;
    the second run leaves the set of indexes as the first one left it. *)
Theorem C7_provisioning_idempotent g index_name w :
  index_name ∉ indexes w ->
  exists w1 w2 evs,
    run (ensure_index_exists g index_name default_dimension default_metric) w
    = (Returned tt, w1) /\
    run (ensure_index_exists g index_name default_dimension default_metric) w1
    = (Returned tt, w2) /\
    trace w2 = trace w ++ evs /\
    evs =
      [ EvListIndexes;
        EvCreateIndex index_name 1536 "cosine" "aws" (PINECONE_ENVIRONMENT g);
        EvPrint ("Created index: " +:+ index_name);
        EvListIndexes;
        EvPrint ("Index " +:+ index_name +:+ " already exists.") ] /\
    List.filter is_create_call evs
    = [ EvCreateIndex index_name 1536 "cosine" "aws" (PINECONE_ENVIRONMENT g) ] /\
    indexes w1 = {[index_name]} ∪ indexes w /\
    indexes w2 = indexes w1.
Proof.
  intros Hout. eexists _, _, _.
  split; [by apply ensure_index_exists_absent|].
  split; [apply ensure_index_exists_present; simpl; set_solver|].
  split; [simpl; by rewrite <- app_assoc|]. done.
Qed.

Lemma C7_provisioning_idempotent_witness :
  exists w1 w2 evs,
    run (ensure_index_exists Sample.globals "sporting-regulations-embeddings"
           default_dimension default_metric) Sample.empty_world
    = (Returned tt, w1) /\
    run (ensure_index_exists Sample.globals "sporting-regulations-embeddings"
           default_dimension default_metric) w1
    = (Returned tt, w2) /\
    trace w2 = [] ++ evs /\
    evs =
      [ EvListIndexes;
        EvCreateIndex "sporting-regulations-embeddings" 1536 "cosine" "aws"
          (Some "us-east-1");
        EvPrint "Created index: sporting-regulations-embeddings";
        EvListIndexes;
        EvPrint "Index sporting-regulations-embeddings already exists." ] /\
    List.filter is_create_call evs
    = [ EvCreateIndex "sporting-regulations-embeddings" 1536 "cosine" "aws"
          (Some "us-east-1") ] /\
    indexes w1 = {["sporting-regulations-embeddings"]} ∪ ∅ /\
    indexes w2 = indexes w1.
Proof.
  apply (C7_provisioning_idempotent Sample.globals
           "sporting-regulations-embeddings" Sample.empty_world).
  simpl. apply not_elem_of_empty.
Defined.

(** ** Start-up validation *)

Lemma paddockpal1_init_missing env w :
  (exists key, In key VALIDATED_SETTINGS /\ truthy_env (getenv env key) = false) ->
  run (paddockpal1_init env) w = (Raised (ValueError missing_configuration), w).
Proof.
  intros (key & Hin & Hkey). unfold paddockpal1_init, read_globals. simpl.
  destruct Hin as [<-|[<-|[<-|[]]]]; rewrite Hkey; simpl;
    rewrite ?orb_true_r; done.
Qed.


(** [init_s3_client] hands the three AWS settings to the client
    constructor as it read them, absent or not. *)
Lemma init_s3_client_unchecked svc env w :
  run (init_s3_client svc env) w
  = (boto3_client svc (getenv env "AWS_ACCESS_KEY_ID")
       (getenv env "AWS_SECRET_ACCESS_KEY") (getenv env "AWS_REGION"),
     {| indexes := indexes w;
        trace := trace w ++
          [ EvBoto3Client "s3" (getenv env "AWS_ACCESS_KEY_ID")
              (getenv env "AWS_SECRET_ACCESS_KEY") (getenv env "AWS_REGION") ] |}).
Proof. done. Qed.

(** C8, as stated, fails: with the OpenAI and Pinecone settings present
    and the three AWS settings absent, the imports of [informationpage] and
    [paddockpal1] complete without raising, and [init_s3_client], when the
    history page later calls it, hands the absent settings to the client
    constructor without a check of its own. *)
Lemma C8_counterexample :
  In "AWS_ACCESS_KEY_ID" REQUIRED_SETTINGS /\
  getenv Sample.environ "AWS_ACCESS_KEY_ID" = None /\
  fst (run (landing_imports Sample.environ) Sample.empty_world)
  = Returned Sample.globals /\
  run (init_s3_client (Sample.services Sample.embedded) Sample.environ)
    Sample.empty_world
  = (Returned tt,
     {| indexes := ∅; trace := [EvBoto3Client "s3" None None None] |}).
Proof.
  split; [simpl; tauto|]. split; [vm_compute; reflexivity|].
  split; vm_compute; reflexivity.
Qed.

(** C8, amended.  If the OpenAI API key, the Pinecone API key or the
    Pinecone environment string is absent or empty, the imports of the
    landing page raise [ValueError] at once: no index is provisioned and
    nothing is rendered, the world is as it was. *)
Theorem C8_startup_validates_openai_and_pinecone env w :
  (exists key, In key VALIDATED_SETTINGS /\ truthy_env (getenv env key) = false) ->
  run (landing_imports env) w = (Raised (ValueError missing_configuration), w).
Proof.
  intros Hmissing. unfold landing_imports, informationpage_init.
  rewrite run_bind. change (run (ret tt) w) with (Returned tt, w).
  by apply paddockpal1_init_missing.
Qed.

Lemma C8_startup_validates_witness :
  run (landing_imports Sample.environ_no_pinecone) Sample.empty_world
  = (Raised (ValueError missing_configuration), Sample.empty_world).
Proof.
  apply (C8_startup_validates_openai_and_pinecone Sample.environ_no_pinecone
           Sample.empty_world).
  exists "PINECONE_API_KEY". split; [simpl; tauto|vm_compute; reflexivity].
Defined.

(** ** Context assembly *)

Lemma collect_contexts_spec ms : forall (seen : gset string) ctxs,
  NoDup ctxs -> (forall t, t ∈ seen <-> t ∈ ctxs) ->
  match collect_contexts ms seen ctxs with
  | Returned cs =>
      NoDup cs /\
      Forall has_metadata ms /\
      (forall t, t ∈ cs ->
         t ∈ ctxs \/ (t <> "" /\ exists m, m ∈ ms /\ match_text m = Returned t))
  | Raised e => e = KeyError "metadata" /\ ~ Forall has_metadata ms
  end.
Proof.
  induction ms as [|m ms IH]; intros seen ctxs Hnd Hseen; simpl.
  - split; [done|]. split; [constructor|]. by left.
  - destruct (metadata m) as [md|] eqn:Hmd.
    2:{ unfold match_text. rewrite Hmd. simpl. split; [done|].
        intros Hall. inversion Hall as [|? ? [? Hm] ?]; subst. congruence. }
    rewrite (match_text_metadata m md Hmd). simpl.
    set (t0 := default "" (text md)).
    assert (has_metadata m) as Hhas by (by exists md).
    assert (forall seen' ctxs',
      (forall t, t ∈ ctxs' -> t ∈ ctxs \/ (t = t0 /\ t0 <> "")) ->
      match collect_contexts ms seen' ctxs' with
      | Returned cs =>
          NoDup cs /\ Forall has_metadata ms /\
          (forall t, t ∈ cs ->
             t ∈ ctxs' \/ (t <> "" /\ exists m, m ∈ ms /\ match_text m = Returned t))
      | Raised e => e = KeyError "metadata" /\ ~ Forall has_metadata ms
      end ->
      match collect_contexts ms seen' ctxs' with
      | Returned cs =>
          NoDup cs /\ Forall has_metadata (m :: ms) /\
          (forall t, t ∈ cs ->
             t ∈ ctxs \/
             (t <> "" /\ exists m', m' ∈ m :: ms /\ match_text m' = Returned t))
      | Raised e => e = KeyError "metadata" /\ ~ Forall has_metadata (m :: ms)
      end) as Hlift.
    { intros seen' ctxs' Hsub H.
      destruct (collect_contexts ms seen' ctxs') as [cs|e].
      - destruct H as (Hn & Hall & Hin). split; [done|]. split; [by constructor|].
        intros t Ht. destruct (Hin t Ht) as [Hc|(Hne & m' & Hm' & Htext)].
        + destruct (Hsub t Hc) as [?|[-> Hne]]; [by left|]. right.
          split; [done|]. exists m. split; [by left|].
          by apply match_text_metadata.
        + right. split; [done|]. exists m'. split; [by right|done].
      - destruct H as [-> Hall]. split; [done|].
        intros Hall'. apply Hall. by inversion Hall'. }
    destruct (Str.truthy t0 && bool_decide (t0 ∉ seen)) eqn:Hnew.
    + apply andb_true_iff in Hnew as [Htruthy Hfresh].
      apply bool_decide_eq_true in Hfresh.
      apply Hlift.
      * intros t Ht. apply elem_of_app in Ht as [?|Ht]; [by left|].
        apply list_elem_of_singleton in Ht as ->. right. split; [done|].
        intros E. by rewrite E in Htruthy.
      * apply IH.
        -- apply NoDup_app. split; [done|]. split; [|apply NoDup_singleton].
           intros t Ht Ht'. apply list_elem_of_singleton in Ht' as ->.
           apply Hfresh. by apply Hseen.
        -- intros t. rewrite elem_of_union, elem_of_singleton, elem_of_app,
             list_elem_of_singleton, Hseen. tauto.
    + apply Hlift; [by left|]. by apply IH.
Qed.

(** C5. The string [get_combined_context] returns is the join of a list
    of blocks without duplicates, of at most three blocks, each of them the
    non-empty text of one of the matches.  The function returns whenever
    every match has metadata, and raises [KeyError] otherwise. *)
Theorem C5_context_blocks_distinct_at_most_three matches :
  match get_combined_context matches with
  | Returned s =>
      Forall has_metadata matches /\
      exists blocks,
        s = Str.join block_separator blocks /\
        NoDup blocks /\
        length blocks <= 3 /\
        forall b, b ∈ blocks ->
          b <> "" /\ exists m, m ∈ matches /\ match_text m = Returned b
  | Raised e => e = KeyError "metadata" /\ ~ Forall has_metadata matches
  end.
Proof.
  unfold get_combined_context.
  pose proof (collect_contexts_spec matches ∅ [] (NoDup_nil_2)) as H.
  destruct (collect_contexts matches ∅ []) as [cs|e]; simpl.
  - destruct H as (Hnd & Hall & Hin); [set_solver|].
    split; [done|]. exists (take 3 cs). split; [done|].
    split; [exact (sublist_NoDup (take 3 cs) cs Hnd (sublist_take cs 3))|].
    split; [rewrite length_take; lia|].
    intros b Hb. apply subseteq_take in Hb.
    destruct (Hin b Hb) as [Hnil|?]; [|done]. by apply elem_of_nil in Hnil.
  - apply H. set_solver.
Qed.

(** ** The keyword-priority merge *)





(** The sample query for "WEIGHT" moves the two weight matches to the
    front and cuts the sixth match. *)
Example query_pinecone_sample :
  fst (run (query_pinecone Sample.globals (Sample.services Sample.embedded)
              "sporting-regulations-embeddings" Sample.vector
              (Some ["WEIGHT"]) 5) Sample.empty_world)
  = Returned
      [ Sample.mk "s1" (9 # 10) "Minimum weight of the car";
        Sample.mk "s3" (8 # 10) "Weight distribution";
        Sample.mk "s2" (8 # 10) "Pit lane speed limit";
        Sample.mk "s4" (7 # 10) "Tyre allocation";
        Sample.mk "s5" (6 # 10) "Parc ferme" ].
Proof. vm_compute. reflexivity. Qed.

(** C9. With the empty keyword list, the only way the module calls it,
    [query_pinecone] finds no keyword match and returns the index's
    matches in their original order, cut at [top_k]. *)
Theorem C9_empty_keywords_identity g svc index_name host emb top_k response w :
  truthy_env (PINECONE_ENVIRONMENT g) = true ->
  INDEX_HOSTS !! index_name = Some host -> Str.truthy host = true ->
  index_query svc index_name emb top_k = Returned response ->
  let ms := default [] (matches response) in
  keyword_filter [] ms = Returned [] /\
  fst (run (query_pinecone g svc index_name emb (Some []) top_k) w)
  = Returned (take top_k ms) /\
  fst (run (query_pinecone g svc index_name emb None top_k) w)
  = Returned (take top_k ms).
Proof.
  intros Henv Hhost Ht Hq ms.
  split; [apply keyword_filter_nil|].
  assert (List.filter (fun m => not_in m []) ms = ms) as Hid.
  { apply forallb_filter_id. by apply forallb_forall. }
  split.
  - rewrite (query_pinecone_merged g svc index_name host emb (Some []) top_k
               response [] Henv Hhost Ht Hq (keyword_filter_nil _)).
    simpl. fold ms. by rewrite Hid.
  - rewrite (query_pinecone_merged g svc index_name host emb None top_k
               response [] Henv Hhost Ht Hq (keyword_filter_nil _)).
    simpl. fold ms. by rewrite Hid.
Qed.

Lemma C9_empty_keywords_identity_witness :
  keyword_filter [] Sample.sporting = Returned [] /\
  fst (run (query_pinecone Sample.globals (Sample.services Sample.embedded)
              "sporting-regulations-embeddings" Sample.vector (Some []) 10)
         Sample.empty_world)
  = Returned (take 10 Sample.sporting) /\
  fst (run (query_pinecone Sample.globals (Sample.services Sample.embedded)
              "sporting-regulations-embeddings" Sample.vector None 10)
         Sample.empty_world)
  = Returned (take 10 Sample.sporting).
Proof.
  apply (C9_empty_keywords_identity Sample.globals (Sample.services Sample.embedded)
           "sporting-regulations-embeddings"
           "sporting-regulations-embeddings-jl357j9.svc.aped-4627-b74a.pinecone.io"
           Sample.vector 10 {| matches := Some Sample.sporting |}
           Sample.empty_world).
  - reflexivity.
  - vm_compute. reflexivity.
  - reflexivity.
  - reflexivity.
Defined.

(** ** The cross-index ranking *)



(** On the sample the five best of the eight matches come back; the
    three matches scored 8/10 keep the order sporting, sporting,
    technical. *)
Example fetch_relevant_documents_sample :
  fst (run (fetch_relevant_documents Sample.globals
              (Sample.services Sample.embedded) Sample.query) Sample.empty_world)
  = Returned
      [ Sample.mk "s1" (9 # 10) "Minimum weight of the car";
        Sample.mk "s2" (8 # 10) "Pit lane speed limit";
        Sample.mk "s3" (8 # 10) "Weight distribution";
        Sample.mk "t1" (8 # 10) "Minimum weight of the car";
        Sample.mk "s4" (7 # 10) "Tyre allocation" ].
Proof. vm_compute. reflexivity. Qed.

(** ** The per-index cut *)

(** C1, as stated, fails: the orchestrator calls [query_pinecone] with
    [top_k = 10], and an index that returns six matches contributes all
    six to [all_results], not five. *)
Lemma C1_counterexample :
  fst (run (query_pinecone Sample.globals (Sample.services Sample.embedded)
              "sporting-regulations-embeddings" Sample.vector (Some []) 10)
         Sample.empty_world)
  = Returned Sample.sporting /\
  fst (run (gather_results Sample.globals (Sample.services Sample.embedded)
              Sample.vector) Sample.empty_world)
  = Returned (Sample.sporting ++ Sample.technical) /\
  length Sample.sporting = 6 /\
  ~ length Sample.sporting <= 5.
Proof.
  split; [vm_compute; reflexivity|].
  split; [vm_compute; reflexivity|].
  split; [reflexivity|]. simpl. lia.
Qed.

(** C1, amended.  For every query that is embedded, the orchestrator
    requests the top 10 neighbours from each of the three fixed indexes, in
    order; each index's matches, keyword matches before the others, are cut
    at 10 entries; the concatenation of the three lists is sorted by
    descending score and cut at 5. *)
Theorem C1_orchestrator_cuts_each_index_at_ten g svc query emb w0 w :
  truthy_env (PINECONE_ENVIRONMENT g) = true ->
  fst (run (generate_embeddings_openai svc query) w0) = Returned (Some emb) ->
  emb <> [] ->
  let per_index index_name :=
    take 10 (merge_keyword_first [] (index_matches svc index_name emb 10)) in
  exists evs,
    run (fetch_relevant_documents g svc query) w
    = (Returned (take 5 (sorted_reverse score_key (concat (map per_index INDEX_NAMES)))),
       {| indexes := indexes w; trace := trace w ++ evs |}) /\
    List.filter is_index_query evs
    = map (fun index_name => EvIndexQuery index_name emb 10 true) INDEX_NAMES.
Proof.
  intros Henv He Hne per_index.
  destruct (generate_embeddings_total svc query) as (e' & evs0 & Hlogs0 & Hn0).
  pose proof (logs_agree _ _ _ _ _ Hlogs0 He) as Heq. inversion Heq; subst e'.
  destruct (index_hosts_known "sporting-regulations-embeddings")
    as (h1 & Hh1 & Ht1); [simpl; tauto|].
  destruct (index_hosts_known "technical-regulations-embeddings")
    as (h2 & Hh2 & Ht2); [simpl; tauto|].
  destruct (index_hosts_known "financial-regulations-embeddings")
    as (h3 & Hh3 & Ht3); [simpl; tauto|].
  destruct (query_pinecone_no_keywords g svc _ h1 emb 10 Henv Hh1 Ht1)
    as (t1 & L1 & Hn1).
  destruct (query_pinecone_no_keywords g svc _ h2 emb 10 Henv Hh2 Ht2)
    as (t2 & L2 & Hn2).
  destruct (query_pinecone_no_keywords g svc _ h3 emb 10 Henv Hh3 Ht3)
    as (t3 & L3 & Hn3).
  pose proof (fetch_ranked g svc query emb _ _ _ Hlogs0 Hne
                (gather_results_logs g svc emb _ _ _ _ _ _ L1 L2 L3)) as Hfetch.
  eexists. split.
  - rewrite Hfetch. unfold rank_results, per_index, INDEX_NAMES. simpl.
    by rewrite !merge_keyword_first_nil, app_nil_r.
  - repeat (rewrite ?List.filter_app; simpl).
    by rewrite Hn0, Hn1, Hn2, Hn3.
Qed.

Lemma C1_orchestrator_cuts_witness :
  exists evs,
    run (fetch_relevant_documents Sample.globals
           (Sample.services Sample.embedded) Sample.query) Sample.empty_world
    = (Returned
         (take 5 (sorted_reverse score_key
            (concat (map (fun index_name =>
                       take 10 (merge_keyword_first []
                         (index_matches (Sample.services Sample.embedded)
                            index_name Sample.vector 10)))
                     INDEX_NAMES)))),
       {| indexes := ∅; trace := [] ++ evs |}) /\
    List.filter is_index_query evs
    = map (fun index_name => EvIndexQuery index_name Sample.vector 10 true)
        INDEX_NAMES.
Proof.
  apply (C1_orchestrator_cuts_each_index_at_ten Sample.globals
           (Sample.services Sample.embedded) Sample.query Sample.vector
           Sample.empty_world Sample.empty_world).
  - reflexivity.
  - reflexivity.
  - discriminate.
Defined.

(** * Further properties of the code *)

(** ** [query_pinecone]: error and edge behaviour *)

Lemma keyword_filter_cons keywords m ms :
  keyword_filter keywords (m :: ms)
  = (b ← any_keyword keywords m;
     rest ← keyword_filter keywords ms;
     mret (if (b : bool) then m :: rest else rest)).
Proof. done. Qed.

Lemma keyword_filter_missing_metadata kw kws ms :
  Exists (fun m => metadata m = None) ms ->
  keyword_filter (kw :: kws) ms = Raised (KeyError "metadata").
Proof.
  induction ms as [|m ms IH]; intros Hex; [by inversion Hex|].
  rewrite keyword_filter_cons.
  destruct (metadata m) as [md|] eqn:Hmd.
  - assert (Exists (fun m => metadata m = None) ms) as Htail.
    { inversion Hex as [? ? Hm|]; subst; [congruence|done]. }
    rewrite (any_keyword_contains (kw :: kws) m) by (by exists md).
    by rewrite (IH Htail).
  - by rewrite (any_keyword_no_metadata kw kws m Hmd).
Qed.

(** Every way [query_pinecone] can go: it answers a list of at most
    [top_k] matches and sends at most one query. *)
Lemma query_pinecone_safe g svc index_name emb keywords top_k :
  exists out evs,
    logs (query_pinecone g svc index_name emb keywords top_k) (Returned out) evs /\
    length out <= top_k /\
    length (List.filter is_index_query evs) <= 1 /\
    List.filter is_embedding_call evs = [] /\
    List.filter is_chat_call evs = [] /\
    List.filter is_ui evs = [].
Proof.
  destruct (truthy_env (PINECONE_ENVIRONMENT g)) eqn:Henv.
  2:{ destruct (query_pinecone_unconnected g svc index_name emb keywords top_k)
        as [e He]; [by left|].
      eexists [], _. split; [exact He|]. simpl. repeat split; lia || done. }
  destruct (truthy_env (INDEX_HOSTS !! index_name)) eqn:Hh.
  2:{ destruct (query_pinecone_unconnected g svc index_name emb keywords top_k)
        as [e He]; [by right|].
      eexists [], _. split; [exact He|]. simpl. repeat split; lia || done. }
  destruct (INDEX_HOSTS !! index_name) as [host|] eqn:Hhost; [|done].
  simpl in Hh.
  destruct (index_query svc index_name emb top_k) as [response|e] eqn:Hq.
  2:{ eexists [], _. split; [by eapply query_pinecone_failed|].
      simpl. repeat split; lia || done. }
  destruct (keyword_filter (default [] keywords) (default [] (matches response)))
    as [kms|e] eqn:Hk.
  2:{ eexists [], _. split; [by eapply query_pinecone_bad_match|].
      simpl. repeat split; lia || done. }
  eexists _, _. split; [by eapply query_pinecone_merged|].
  rewrite length_take. simpl. repeat split; lia || done.
Qed.

(** X1. [query_pinecone] never raises: whatever the globals, the index
    name and the service's answer, it returns a list of at most [top_k]
    matches, sends at most one query and leaves the set of indexes
    alone. *)
Theorem X1_query_pinecone_never_raises g svc index_name emb keywords top_k w :
  exists out evs,
    run (query_pinecone g svc index_name emb keywords top_k) w
    = (Returned out, {| indexes := indexes w; trace := trace w ++ evs |}) /\
    length out <= top_k /\
    length (List.filter is_index_query evs) <= 1.
Proof.
  destruct (query_pinecone_safe g svc index_name emb keywords top_k)
    as (out & evs & Hlogs & Hlen & Hq & _).
  exists out, evs. split; [apply Hlogs|]. done.
Qed.

(** X2. For an index name without an entry in [INDEX_HOSTS],
    [query_pinecone] returns the empty list without sending a query: the
    only thing it does is print the error of [get_pinecone_index]. *)
Theorem X2_query_pinecone_unknown_index g svc index_name emb keywords top_k w :
  truthy_env (PINECONE_ENVIRONMENT g) = true ->
  INDEX_HOSTS !! index_name = None ->
  run (query_pinecone g svc index_name emb keywords top_k) w
  = (Returned [],
     {| indexes := indexes w;
        trace := trace w ++
          [ EvPrint ("Error querying index " +:+ index_name +:+ ": "
                     +:+ "Host for index " +:+ index_name +:+ " is not defined.") ] |}).
Proof.
  intros Henv Hhost.
  assert (logs (get_pinecone_index g index_name)
            (Raised (ValueError ("Host for index " +:+ index_name +:+ " is not defined.")))
            []) as Hget.
  { unfold get_pinecone_index. rewrite Henv, Hhost. simpl. apply logs_raise. }
  unfold query_pinecone.
  eapply logs_eq.
  - eapply logs_try_raised; [by apply logs_bind_raised|]. repeat logs_step.
  - done.
Qed.

Lemma X2_query_pinecone_unknown_index_witness :
  run (query_pinecone Sample.globals (Sample.services Sample.embedded)
         "aero-regulations-embeddings" Sample.vector None 5) Sample.empty_world
  = (Returned [],
     {| indexes := ∅;
        trace := [] ++
          [ EvPrint ("Error querying index " +:+ "aero-regulations-embeddings" +:+ ": "
                     +:+ "Host for index " +:+ "aero-regulations-embeddings"
                     +:+ " is not defined.") ] |}).
Proof.
  apply (X2_query_pinecone_unknown_index Sample.globals
           (Sample.services Sample.embedded) "aero-regulations-embeddings"
           Sample.vector None 5 Sample.empty_world).
  - reflexivity.
  - vm_compute. reflexivity.
Defined.

(** X3. When the query to one of the three indexes fails,
    [query_pinecone] connects, sends the query, prints the error and
    returns the empty list. *)
Theorem X3_query_pinecone_failed_query g svc index_name emb keywords top_k e w :
  In index_name INDEX_NAMES ->
  truthy_env (PINECONE_ENVIRONMENT g) = true ->
  index_query svc index_name emb top_k = Raised e ->
  exists host,
    INDEX_HOSTS !! index_name = Some host /\
    run (query_pinecone g svc index_name emb keywords top_k) w
    = (Returned [],
       {| indexes := indexes w;
          trace := trace w ++
            [ EvPrint ("Connecting to Pinecone index at host: " +:+ host);
              EvIndexHandle index_name host;
              EvIndexQuery index_name emb top_k true;
              EvPrint ("Error querying index " +:+ index_name +:+ ": "
                       +:+ exn_str e) ] |}).
Proof.
  intros Hin Henv Hq.
  destruct (index_hosts_known index_name Hin) as (host & Hhost & Ht).
  exists host. split; [done|].
  apply (query_pinecone_failed g svc index_name host emb keywords top_k e
           Henv Hhost Ht Hq).
Qed.

Lemma X3_query_pinecone_failed_query_witness :
  exists host,
    INDEX_HOSTS !! "financial-regulations-embeddings" = Some host /\
    run (query_pinecone Sample.globals (Sample.services Sample.embedded)
           "financial-regulations-embeddings" Sample.vector None 5)
      Sample.empty_world
    = (Returned [],
       {| indexes := ∅;
          trace := [] ++
            [ EvPrint ("Connecting to Pinecone index at host: " +:+ host);
              EvIndexHandle "financial-regulations-embeddings" host;
              EvIndexQuery "financial-regulations-embeddings" Sample.vector 5 true;
              EvPrint ("Error querying index " +:+ "financial-regulations-embeddings"
                       +:+ ": " +:+ exn_str (ServiceError "index unavailable")) ] |}).
Proof.
  apply (X3_query_pinecone_failed_query Sample.globals
           (Sample.services Sample.embedded) "financial-regulations-embeddings"
           Sample.vector None 5 (ServiceError "index unavailable")
           Sample.empty_world).
  - simpl. tauto.
  - reflexivity.
  - reflexivity.
Defined.

(** X4. With at least one keyword, a single match without a metadata
    entry costs the whole answer of the index: the keyword test raises
    [KeyError], the handler prints it and [query_pinecone] returns the empty
    list, also for the matches that do have metadata. *)
Theorem X4_query_pinecone_match_without_metadata g svc index_name emb kw kws
    top_k response w :
  In index_name INDEX_NAMES ->
  truthy_env (PINECONE_ENVIRONMENT g) = true ->
  index_query svc index_name emb top_k = Returned response ->
  Exists (fun m => metadata m = None) (default [] (matches response)) ->
  exists host,
    run (query_pinecone g svc index_name emb (Some (kw :: kws)) top_k) w
    = (Returned [],
       {| indexes := indexes w;
          trace := trace w ++
            [ EvPrint ("Connecting to Pinecone index at host: " +:+ host);
              EvIndexHandle index_name host;
              EvIndexQuery index_name emb top_k true;
              EvPrint ("Error querying index " +:+ index_name +:+ ": 'metadata'") ] |}).
Proof.
  intros Hin Henv Hq Hex.
  destruct (index_hosts_known index_name Hin) as (host & Hhost & Ht).
  exists host.
  apply (query_pinecone_bad_match g svc index_name host emb (Some (kw :: kws))
           top_k response (KeyError "metadata") Henv Hhost Ht Hq).
  by apply keyword_filter_missing_metadata.
Qed.

Lemma X4_query_pinecone_match_without_metadata_witness :
  exists host,
    run (query_pinecone Sample.globals
           (Cases.answering Cases.mixed Sample.embedded (Returned Sample.reply))
           "sporting-regulations-embeddings" Sample.vector
           (Some ["weight"]) 5) Sample.empty_world
    = (Returned [],
       {| indexes := ∅;
          trace := [] ++
            [ EvPrint ("Connecting to Pinecone index at host: " +:+ host);
              EvIndexHandle "sporting-regulations-embeddings" host;
              EvIndexQuery "sporting-regulations-embeddings" Sample.vector 5 true;
              EvPrint ("Error querying index "
                       +:+ "sporting-regulations-embeddings" +:+ ": 'metadata'") ] |}).
Proof.
  apply (X4_query_pinecone_match_without_metadata Sample.globals
           (Cases.answering Cases.mixed Sample.embedded (Returned Sample.reply))
           "sporting-regulations-embeddings" Sample.vector "weight" [] 5
           {| matches := Some Cases.mixed |} Sample.empty_world).
  - simpl. tauto.
  - reflexivity.
  - reflexivity.
  - simpl. apply Exists_cons_tl, Exists_cons_hd. reflexivity.
Defined.

(** ** [generate_embeddings_openai] and [fetch_relevant_documents] *)

Ltac run_m :=
  unfold run, try_except, mbind, M_bind, bind, mret, M_ret, ret, raise, lift,
    print, emit; simpl.

(** X5. [generate_embeddings_openai] never raises.  It makes one call to
    the embedding API and nothing else but printing, and it returns an
    embedding exactly when the call answered a response whose first data
    item has one; a failed call and a response without data, with an empty
    data list or without embedding all give [None]. *)
Theorem X5_generate_embeddings_never_raises svc text w :
  exists r tail,
    run (generate_embeddings_openai svc text) w
    = (Returned r,
       {| indexes := indexes w;
          trace := trace w ++ EvEmbeddingCreate text embedding_model :: tail |}) /\
    List.filter is_service_call tail = [] /\
    forall e,
      r = Some e <->
      exists rest,
        embedding_create svc text embedding_model
        = Returned {| data := Some ({| embedding := Some e |} :: rest) |}.
Proof.
  unfold generate_embeddings_openai.
  destruct (embedding_create svc text embedding_model)
    as [[[[|[[e0|]] rest]|]]|x] eqn:Hc; run_m.
  - eexists None, [_]. rewrite <- app_assoc. split; [done|]. split; [done|].
    intros e. split; [done|]. by intros (? & ?).
  - exists (Some e0), []. split; [done|]. split; [done|].
    intros e. split.
    + intros [= ->]. by exists rest.
    + by intros (? & [= -> _]).
  - eexists None, [_]. rewrite <- app_assoc. split; [done|]. split; [done|].
    intros e. split; [done|]. by intros (? & ?).
  - eexists None, [_]. rewrite <- app_assoc. split; [done|]. split; [done|].
    intros e. split; [done|]. by intros (? & ?).
  - eexists None, [_]. rewrite <- app_assoc. split; [done|]. split; [done|].
    intros e. split; [done|]. by intros (? & ?).
Qed.

Lemma generate_embeddings_safe svc text :
  exists r evs,
    logs (generate_embeddings_openai svc text) (Returned r) evs /\
    length (List.filter is_embedding_call evs) = 1 /\
    List.filter is_index_query evs = [] /\
    List.filter is_chat_call evs = [] /\
    List.filter is_ui evs = [].
Proof.
  unfold generate_embeddings_openai.
  destruct (embedding_create svc text embedding_model)
    as [[[[|[[e0|]] rest]|]]|x] eqn:Hc.
  all: eexists _, _; split;
    [intros w; run_m; rewrite <- ?app_assoc; reflexivity|done].
Qed.

Lemma gather_results_safe g svc emb :
  exists all_results evs,
    logs (gather_results g svc emb) (Returned all_results) evs /\
    length (List.filter is_index_query evs) <= 3 /\
    List.filter is_embedding_call evs = [] /\
    List.filter is_chat_call evs = [] /\
    List.filter is_ui evs = [].
Proof.
  destruct (query_pinecone_safe g svc "sporting-regulations-embeddings" emb
              (Some []) 10) as (r1 & evs1 & L1 & _ & Q1 & E1 & C1 & U1).
  destruct (query_pinecone_safe g svc "technical-regulations-embeddings" emb
              (Some []) 10) as (r2 & evs2 & L2 & _ & Q2 & E2 & C2 & U2).
  destruct (query_pinecone_safe g svc "financial-regulations-embeddings" emb
              (Some []) 10) as (r3 & evs3 & L3 & _ & Q3 & E3 & C3 & U3).
  eexists _, _. split; [by apply gather_results_logs|].
  repeat (rewrite ?List.filter_app; simpl).
  rewrite E1, E2, E3, C1, C2, C3, U1, U2, U3, !length_app. simpl.
  split; [lia|done].
Qed.

Lemma fetch_relevant_documents_safe g svc query :
  exists out evs,
    logs (fetch_relevant_documents g svc query) (Returned out) evs /\
    length out <= 5 /\
    length (List.filter is_embedding_call evs) = 1 /\
    length (List.filter is_index_query evs) <= 3 /\
    List.filter is_chat_call evs = [] /\
    List.filter is_ui evs = [].
Proof.
  destruct (generate_embeddings_safe svc query)
    as (e & evs0 & He & E0 & Q0 & C0 & U0).
  destruct (truthy_embedding e) eqn:Ht.
  - destruct e as [[|x emb']|]; try done.
    destruct (gather_results_safe g svc (x :: emb'))
      as (all_results & evs1 & Hg & Q1 & E1 & C1 & U1).
    eexists _, _. split; [by eapply fetch_ranked|].
    split; [rewrite rank_results_length; lia|].
    simpl. rewrite !List.filter_app, !length_app, E1, Q0, C0, C1, U0, U1. simpl.
    split; [lia|]. split; [lia|done].
  - eexists _, _. split; [by eapply fetch_falsy|]. split; [simpl; lia|].
    simpl. rewrite !List.filter_app, !length_app, Q0, C0, U0. simpl.
    split; [lia|]. split; [lia|done].
Qed.

(** X6. [fetch_relevant_documents] never raises, whatever the services
    answer.  It returns at most five matches, calls the embedding API
    exactly once, sends at most three index queries, does not call the chat
    API and leaves the set of indexes alone. *)
Theorem X6_fetch_relevant_documents_never_raises g svc query w :
  exists out evs,
    run (fetch_relevant_documents g svc query) w
    = (Returned out, {| indexes := indexes w; trace := trace w ++ evs |}) /\
    length out <= 5 /\
    length (List.filter is_embedding_call evs) = 1 /\
    length (List.filter is_index_query evs) <= 3 /\
    List.filter is_chat_call evs = [].
Proof.
  destruct (fetch_relevant_documents_safe g svc query)
    as (out & evs & Hlogs & Hlen & He & Hq & Hc & _).
  exists out, evs. split; [apply Hlogs|done].
Qed.

(** ** [get_combined_context]: the order of the blocks *)

Lemma remove_dups_NoDup (l : list string) : NoDup l -> remove_dups l = l.
Proof.
  induction 1 as [|x l Hx _ IH]; simpl; [done|].
  destruct (decide_rel elem_of x l); [done|]. by rewrite IH.
Qed.

Lemma remove_dups_later (a b : list string) t :
  t ∈ b -> remove_dups (a ++ t :: b) = remove_dups (a ++ b).
Proof.
  intros Ht. induction a as [|x a IH]; simpl.
  - by destruct (decide_rel elem_of t b).
  - rewrite IH.
    destruct (decide_rel elem_of x (a ++ t :: b)) as [H1|H1],
             (decide_rel elem_of x (a ++ b)) as [H2|H2]; try done.
    + exfalso. apply H2. apply elem_of_app in H1 as [?|H1]; [set_solver|].
      apply elem_of_cons in H1 as [->|?]; set_solver.
    + exfalso. apply H1. set_solver.
Qed.

Lemma first_occurrences_NoDup l : NoDup l -> first_occurrences l = l.
Proof.
  intros Hnd. unfold first_occurrences.
  rewrite remove_dups_NoDup by (by rewrite reverse_Permutation).
  apply reverse_involutive.
Qed.

(** A text already met does not come a second time. *)
Lemma first_occurrences_seen l1 l2 t :
  t ∈ l1 -> first_occurrences (l1 ++ t :: l2) = first_occurrences (l1 ++ l2).
Proof.
  intros Ht. unfold first_occurrences. f_equal.
  rewrite !reverse_app, reverse_cons, <- app_assoc. simpl.
  apply remove_dups_later. by apply elem_of_reverse.
Qed.

Lemma nonempty_texts_cons m ms :
  nonempty_texts (m :: ms)
  = if Str.truthy (text_or_empty m) then text_or_empty m :: nonempty_texts ms
    else nonempty_texts ms.
Proof. done. Qed.

Lemma collect_contexts_first_occurrences ms : forall (seen : gset string) ctxs,
  NoDup ctxs -> (forall t, t ∈ seen <-> t ∈ ctxs) ->
  Forall has_metadata ms ->
  collect_contexts ms seen ctxs
  = Returned (first_occurrences (ctxs ++ nonempty_texts ms)).
Proof.
  induction ms as [|m ms IH]; intros seen ctxs Hnd Hseen Hall.
  - simpl. unfold nonempty_texts. simpl.
    by rewrite app_nil_r, first_occurrences_NoDup.
  - apply Forall_cons in Hall as [[md Hmd] Hall].
    simpl collect_contexts. rewrite (match_text_metadata m md Hmd). simpl.
    rewrite nonempty_texts_cons. unfold text_or_empty at 1 2. rewrite Hmd.
    set (t := default "" (text md)).
    destruct (Str.truthy t) eqn:Htruthy; simpl.
    + destruct (bool_decide (t ∉ seen)) eqn:Hfresh.
      * apply bool_decide_eq_true in Hfresh.
        rewrite IH; [by rewrite <- app_assoc| | |done].
        -- apply NoDup_app. split; [done|]. split; [|apply NoDup_singleton].
           intros t' Ht' Ht''. apply list_elem_of_singleton in Ht'' as ->.
           apply Hfresh. by apply Hseen.
        -- intros t'. rewrite elem_of_union, elem_of_singleton, elem_of_app,
             list_elem_of_singleton, Hseen. tauto.
      * apply bool_decide_eq_false in Hfresh.
        assert (t ∈ ctxs) as Hin.
        { apply Hseen. by destruct (decide (t ∈ seen)). }
        rewrite (first_occurrences_seen ctxs _ t Hin). by apply IH.
    + by apply IH.
Qed.

Lemma get_combined_context_ordered ms :
  Forall has_metadata ms ->
  get_combined_context ms
  = Returned (Str.join block_separator
                (take 3 (first_occurrences (nonempty_texts ms)))).
Proof.
  intros Hall. unfold get_combined_context.
  rewrite (collect_contexts_first_occurrences ms ∅ [] (NoDup_nil_2)); [done| |done].
  intros t. split; [by intros ?%not_elem_of_empty|by intros ?%not_elem_of_nil].
Qed.

(** X7. When every match has metadata, the context is built from the
    non-empty texts of the matches in the order of the matches, each text
    at its first occurrence, and only the first three of them are joined;
    matches with an empty or missing text are passed over and do not count
    towards the three. *)
Theorem X7_context_blocks_in_match_order ms :
  Forall has_metadata ms ->
  get_combined_context ms
  = Returned (Str.join block_separator
                (take 3 (first_occurrences (nonempty_texts ms)))).
Proof. apply get_combined_context_ordered. Qed.

Lemma X7_context_blocks_in_match_order_witness :
  get_combined_context Cases.repeated
  = Returned (Str.join block_separator
                (take 3 (first_occurrences (nonempty_texts Cases.repeated)))).
Proof.
  apply (X7_context_blocks_in_match_order Cases.repeated).
  unfold Cases.repeated, has_metadata.
  repeat (constructor; [by eexists|]). constructor.
Defined.

(** On the sample the repeated and the empty text are passed over and the
    fourth distinct text is cut. *)
Example get_combined_context_sample :
  get_combined_context Cases.repeated
  = Returned ("Minimum weight" +:+ block_separator +:+ "Pit lane"
              +:+ block_separator +:+ "Parc ferme").
Proof. vm_compute. reflexivity. Qed.

(** ** [generate_answer_with_openai] with a context *)



(** ** [show_paddockpal] *)










(** ** Provisioning at import *)




(** After the sample import of the sporting index alone, the loop
    creates the two others. *)
Example ensure_all_indexes_sample :
  List.filter is_create_call
    (trace (snd (run (ensure_all_indexes Sample.globals)
                   {| indexes := {["sporting-regulations-embeddings"]};
                      trace := [] |})))
  = [ create_event Sample.globals "technical-regulations-embeddings";
      create_event Sample.globals "financial-regulations-embeddings" ].
Proof. vm_compute. reflexivity. Qed.


(** X14. After a successful import the guards of [get_pinecone_index]
    cannot fire for the module's own indexes: with the globals the import
    returned, connecting to any of the three fixed names returns a handle
    on the host recorded for it. *)
Theorem X14_import_enables_connections env w g w' index_name w'' :
  run (paddockpal1_init env) w = (Returned g, w') ->
  In index_name INDEX_NAMES ->
  exists host,
    INDEX_HOSTS !! index_name = Some host /\
    run (get_pinecone_index g index_name) w''
    = (Returned {| handle_name := index_name; handle_host := host |},
       {| indexes := indexes w'';
          trace := trace w'' ++
            [ EvPrint ("Connecting to Pinecone index at host: " +:+ host);
              EvIndexHandle index_name host ] |}).
Proof.
  intros Hinit Hin.
  destruct (index_hosts_known index_name Hin) as (host & Hhost & Ht).
  exists host. split; [done|].
  apply get_pinecone_index_logs; [|done..].
  destruct (truthy_env (getenv env "PINECONE_ENV")) eqn:H3.
  - assert (g = read_globals env) as ->; [|exact H3].
    unfold paddockpal1_init in Hinit.
    destruct (negb _ || negb _ || negb _); [done|].
    rewrite run_bind in Hinit.
    destruct (ensure_all_indexes_total (read_globals env) w) as (evs & E & _).
    rewrite E in Hinit. by inversion Hinit.
  - rewrite paddockpal1_init_missing in Hinit; [done|].
    exists "PINECONE_ENV". simpl. tauto.
Qed.

Lemma X14_import_enables_connections_witness :
  exists host,
    INDEX_HOSTS !! "technical-regulations-embeddings" = Some host /\
    run (get_pinecone_index Sample.globals "technical-regulations-embeddings")
      Sample.empty_world
    = (Returned {| handle_name := "technical-regulations-embeddings";
                   handle_host := host |},
       {| indexes := ∅;
          trace := [] ++
            [ EvPrint ("Connecting to Pinecone index at host: " +:+ host);
              EvIndexHandle "technical-regulations-embeddings" host ] |}).
Proof.
  apply (X14_import_enables_connections Sample.environ Sample.empty_world
           Sample.globals
           (snd (run (paddockpal1_init Sample.environ) Sample.empty_world))
           "technical-regulations-embeddings" Sample.empty_world).
  - vm_compute. reflexivity.
  - simpl. tauto.
Defined.

(** ** The monad of the pages *)

Lemma app_logs_ret {A} (a : A) : app_logs (app_ret a) (Done a) [].
Proof. intros [px ss tr]. unfold run_app, app_ret. simpl. by rewrite app_nil_r. Qed.

Lemma app_logs_raise {A} (f : failure) : app_logs (@app_raise A f) (Failed f) [].
Proof. intros [px ss tr]. unfold run_app, app_raise. simpl. by rewrite app_nil_r. Qed.

Lemma app_logs_lift_outcome {A} (o : outcome A) :
  app_logs (lift_outcome o) (to_result o) [].
Proof. intros [px ss tr]. unfold run_app, lift_outcome. simpl. by rewrite app_nil_r. Qed.

Lemma app_logs_emit (ev : AppEvent) : app_logs (app_emit ev) (Done tt) [ev].
Proof. by intros aw. Qed.

Lemma app_logs_ui widget body :
  app_logs (ui widget body) (Done tt) [Core (EvUI widget body)].
Proof. by intros aw. Qed.

Lemma app_logs_bind {A B} (m : App A) (k : A -> App B) a evs1 r evs2 :
  app_logs m (Done a) evs1 -> app_logs (k a) r evs2 ->
  app_logs (m ≫= k) r (evs1 ++ evs2).
Proof.
  intros Hm Hk aw. unfold app_logs, mbind, App_bind, app_bind, run_app in *.
  rewrite Hm, Hk. simpl. by rewrite app_assoc.
Qed.

Lemma app_logs_bind_failed {A B} (m : App A) (k : A -> App B) f evs :
  app_logs m (Failed f) evs -> app_logs (m ≫= k) (Failed f) evs.
Proof.
  intros Hm aw. unfold app_logs, mbind, App_bind, app_bind, run_app in *.
  by rewrite Hm.
Qed.

Lemma app_logs_try_done {A} (m : App A) h a evs :
  app_logs m (Done a) evs -> app_logs (app_try_except m h) (Done a) evs.
Proof. intros Hm aw. unfold app_logs, app_try_except, run_app in *. by rewrite Hm. Qed.

Lemma app_logs_try_failed {A} (m : App A) h f evs1 r evs2 :
  app_logs m (Failed f) evs1 -> app_logs (h f) r evs2 ->
  app_logs (app_try_except m h) r (evs1 ++ evs2).
Proof.
  intros Hm Hh aw. unfold app_logs, app_try_except, run_app in *.
  rewrite Hm, Hh. simpl. by rewrite app_assoc.
Qed.

(** A lifted computation logs what it logged, wrapped. *)
Lemma app_logs_lift_core {A} (m : M A) o evs :
  logs m o evs -> app_logs (lift_core m) (to_result o) (map Core evs).
Proof.
  intros Hm aw. unfold run_app, lift_core.
  change (m {| indexes := pinecone aw; trace := [] |})
    with (run m {| indexes := pinecone aw; trace := [] |}).
  by rewrite Hm.
Qed.

Lemma app_logs_eq {A} (m : App A) r evs evs' :
  app_logs m r evs -> evs = evs' -> app_logs m r evs'.
Proof. by intros H <-. Qed.

Lemma app_logs_eq2 {A} (m : App A) r r' evs evs' :
  app_logs m r evs -> r = r' -> evs = evs' -> app_logs m r' evs'.
Proof. by intros H <- <-. Qed.

Lemma app_logs_fun {A} (m : App A) r1 r2 evs1 evs2 :
  app_logs m r1 evs1 -> app_logs m r2 evs2 -> r1 = r2 /\ evs1 = evs2.
Proof.
  intros H1 H2.
  pose proof (H1 {| pinecone := ∅; session_state := ∅; app_trace := [] |}) as E1.
  rewrite H2 in E1. simpl in E1. by inversion E1.
Qed.

Ltac app_step :=
  first
    [ apply app_logs_ret | apply app_logs_raise | apply app_logs_lift_outcome
    | apply app_logs_emit | apply app_logs_ui
    | eapply app_logs_bind ].

(** ** [informationpage.py] *)

Section InformationPageFacts.

Import InformationPage.

Variable svc : Services.
Variable store : ObjectStore.
Variable env : Environ.

Lemma init_s3_client_logs :
  logs (init_s3_client svc env)
       (boto3_client svc (getenv env "AWS_ACCESS_KEY_ID")
          (getenv env "AWS_SECRET_ACCESS_KEY") (getenv env "AWS_REGION"))
       [ EvBoto3Client "s3" (getenv env "AWS_ACCESS_KEY_ID")
           (getenv env "AWS_SECRET_ACCESS_KEY") (getenv env "AWS_REGION") ].
Proof. intros w. apply init_s3_client_unchecked. Qed.

Lemma s3_get_object_logs bucket k :
  app_logs (s3_get_object store bucket k)
           (to_result (get_object store bucket k)) [EvS3GetObject bucket k].
Proof.
  unfold s3_get_object. destruct (get_object store bucket k) as [r|e].
  - eapply app_logs_eq; [repeat app_step|done].
  - eapply app_logs_eq.
    + eapply app_logs_bind; [apply app_logs_emit|].
      apply (app_logs_lift_outcome (Raised e)).
    + done.
Qed.

Lemma s3_list_objects_logs bucket prefix :
  app_logs (s3_list_objects_v2 store bucket prefix)
           (to_result (list_objects_v2 store bucket prefix))
           [EvS3ListObjects bucket prefix].
Proof.
  unfold s3_list_objects_v2.
  eapply app_logs_eq.
  - eapply app_logs_bind; [apply app_logs_emit|]. apply app_logs_lift_outcome.
  - done.
Qed.

Lemma image_step_skip bucket acc obj :
  is_image_key (Key obj) = false ->
  app_logs (image_step store bucket acc obj) (Done acc) [].
Proof. intros H. unfold image_step. rewrite H. apply app_logs_ret. Qed.

Lemma image_step_fetch bucket acc obj r :
  is_image_key (Key obj) = true ->
  get_object store bucket (Key obj) = Returned r ->
  app_logs (image_step store bucket acc obj)
           (Done (acc ++ [ {| key := Key obj; data := Body r |} ]))
           [EvS3GetObject bucket (Key obj)].
Proof.
  intros H Hget. unfold image_step. rewrite H.
  pose proof (s3_get_object_logs bucket (Key obj)) as Hlogs.
  rewrite Hget in Hlogs.
  eapply app_logs_eq.
  - eapply app_logs_bind; [exact Hlogs|]. apply app_logs_ret.
  - done.
Qed.

Lemma image_step_fail bucket acc obj e :
  is_image_key (Key obj) = true ->
  get_object store bucket (Key obj) = Raised e ->
  app_logs (image_step store bucket acc obj) (Failed (Exn e))
           [EvS3GetObject bucket (Key obj)].
Proof.
  intros H Hget. unfold image_step. rewrite H.
  apply app_logs_bind_failed.
  pose proof (s3_get_object_logs bucket (Key obj)) as Hlogs.
  by rewrite Hget in Hlogs.
Qed.

Lemma app_for_each_cons {A S} (x : A) l (body : S -> A -> App S) acc :
  app_for_each (x :: l) body acc = (acc' ← body acc x; app_for_each l body acc').
Proof. done. Qed.

(** When every picture can be read, the loop reads the pictures of the
    listing in order and nothing else. *)
Lemma load_images_all bucket body_of objs : forall acc,
  (forall obj, In obj objs -> is_image_key (Key obj) = true ->
     get_object store bucket (Key obj) = Returned {| Body := body_of (Key obj) |}) ->
  app_logs (app_for_each objs (image_step store bucket) acc)
           (Done (acc ++ map (image_of body_of) (image_keys objs)))
           (map (EvS3GetObject bucket) (image_keys objs)).
Proof.
  induction objs as [|obj objs IH]; intros acc Hget.
  - unfold image_keys. simpl. rewrite app_nil_r. apply app_logs_ret.
  - assert (forall o, In o objs -> is_image_key (Key o) = true ->
              get_object store bucket (Key o) = Returned {| Body := body_of (Key o) |})
      as Hrest by (intros o Ho; apply Hget; by right).
    rewrite app_for_each_cons.
    unfold image_keys in *. simpl map. simpl List.filter.
    destruct (is_image_key (Key obj)) eqn:Himg.
    + eapply app_logs_eq2.
      * eapply app_logs_bind.
        { apply (image_step_fetch bucket acc obj _ Himg
                   (Hget obj (or_introl eq_refl) Himg)). }
        apply (IH _ Hrest).
      * simpl. by rewrite <- app_assoc.
      * done.
    + eapply app_logs_eq.
      * eapply app_logs_bind; [by apply image_step_skip|]. apply (IH _ Hrest).
      * done.
Qed.


(** One picture that cannot be read stops the loop with a failure. *)
Lemma load_images_fails bucket objs : forall acc,
  Exists (fun obj => is_image_key (Key obj) = true /\
                     exists e, get_object store bucket (Key obj) = Raised e) objs ->
  exists e evs,
    app_logs (app_for_each objs (image_step store bucket) acc) (Failed (Exn e)) evs.
Proof.
  induction objs as [|obj objs IH]; intros acc Hex; [by inversion Hex|].
  rewrite app_for_each_cons.
  destruct (is_image_key (Key obj)) eqn:Himg.
  - destruct (get_object store bucket (Key obj)) as [r|e] eqn:Hget.
    + assert (Exists (fun obj => is_image_key (Key obj) = true /\
                exists e, get_object store bucket (Key obj) = Raised e) objs) as Htail.
      { inversion Hex as [? ? (_ & e & He)|]; subst; [congruence|done]. }
      destruct (IH (acc ++ [ {| key := Key obj; data := Body r |} ]) Htail)
        as (e & evs & Hlogs).
      eexists _, _.
      eapply app_logs_bind; [by apply image_step_fetch|exact Hlogs].
    + eexists _, _. apply app_logs_bind_failed. by apply image_step_fail.
  - assert (Exists (fun obj => is_image_key (Key obj) = true /\
              exists e, get_object store bucket (Key obj) = Raised e) objs) as Htail.
    { inversion Hex as [? ? (Hk & _)|]; subst; [congruence|done]. }
    destruct (IH acc Htail) as (e & evs & Hlogs).
    eexists _, _.
    eapply app_logs_bind; [by apply image_step_skip|exact Hlogs].
Qed.

End InformationPageFacts.

Section HistoryFacts.

Variable svc : Services.
Variable store : ObjectStore.
Variable env : Environ.

Lemma init_s3_client_available :
  client_available svc env ->
  app_logs (lift_core (init_s3_client svc env)) (Done tt) [client_event env].
Proof.
  intros Hc.
  pose proof (app_logs_lift_core _ _ _ (init_s3_client_logs svc env)) as H.
  unfold client_available in Hc. by rewrite Hc in H.
Qed.

Lemma decode_logs b o :
  decode_utf8 store b = o ->
  app_logs (lift_outcome (decode_utf8 store b)) (to_result o) [].
Proof. intros <-. apply app_logs_lift_outcome. Qed.

Lemma load_handler_logs f :
  app_logs (ui "error" ("Error loading history data: " +:+ failure_str f);;
            app_ret (None : option InformationPage.History))
           (Done None)
           [Core (EvUI "error" ("Error loading history data: " +:+ failure_str f))].
Proof. eapply app_logs_eq; [repeat app_step|done]. Qed.

(** The text object cannot be read or decoded: the handler answers. *)
Lemma load_history_text_failed bucket e :
  client_available svc env ->
  (get_object store bucket InformationPage.history_key = Raised e \/
   exists r, get_object store bucket InformationPage.history_key = Returned r /\
             decode_utf8 store (Body r) = Raised e) ->
  app_logs (InformationPage.load_history_content svc store env bucket) (Done None)
           [ client_event env;
             EvS3GetObject bucket InformationPage.history_key;
             Core (EvUI "error" ("Error loading history data: " +:+ exn_str e)) ].
Proof.
  intros Hc Hfail. unfold InformationPage.load_history_content.
  pose proof (s3_get_object_logs store bucket InformationPage.history_key) as Hget.
  eapply app_logs_eq.
  - eapply app_logs_bind; [by apply init_s3_client_available|].
    eapply app_logs_try_failed; [|apply (load_handler_logs (Exn e))].
    destruct Hfail as [Hraised|(r & Hr & Hdec)].
    + apply app_logs_bind_failed. by rewrite Hraised in Hget.
    + rewrite Hr in Hget.
      eapply app_logs_eq.
      * eapply app_logs_bind; [exact Hget|].
        apply app_logs_bind_failed. apply (decode_logs _ _ Hdec).
      * by rewrite app_nil_r.
  - done.
Qed.

(** With the text read and the listing answered, the result depends on
    the loop over the listing alone. *)
Lemma load_history_listed bucket r text contents :
  client_available svc env ->
  get_object store bucket InformationPage.history_key = Returned r ->
  decode_utf8 store (Body r) = Returned text ->
  list_objects_v2 store bucket InformationPage.images_prefix
  = Returned {| Contents := contents |} ->
  forall res evs,
    app_logs (app_for_each (default [] contents) (image_step store bucket) []) res evs ->
    app_logs (InformationPage.load_history_content svc store env bucket)
      (match res with
       | Done images =>
           Done (Some {| InformationPage.content := text;
                         InformationPage.images := images |})
       | Failed f => Done None
       end)
      ([ client_event env;
         EvS3GetObject bucket InformationPage.history_key;
         EvS3ListObjects bucket InformationPage.images_prefix ] ++ evs ++
       match res with
       | Done _ => []
       | Failed f =>
           [Core (EvUI "error" ("Error loading history data: " +:+ failure_str f))]
       end).
Proof.
  intros Hc Hr Hdec Hlist res evs Hloop.
  unfold InformationPage.load_history_content.
  pose proof (s3_get_object_logs store bucket InformationPage.history_key) as Hget.
  rewrite Hr in Hget.
  pose proof (decode_logs _ _ Hdec) as Hd.
  pose proof (s3_list_objects_logs store bucket InformationPage.images_prefix) as Hl.
  rewrite Hlist in Hl.
  assert (app_logs
            (match Contents {| Contents := contents |} with
             | Some objs => InformationPage.load_images store bucket objs
             | None => app_ret []
             end) res evs) as Himages.
  { destruct contents as [objs|]; exact Hloop. }
  destruct res as [images|f].
  - eapply app_logs_eq.
    + eapply app_logs_bind; [by apply init_s3_client_available|].
      apply app_logs_try_done.
      eapply app_logs_bind; [exact Hget|].
      eapply app_logs_bind; [exact Hd|].
      eapply app_logs_bind; [exact Hl|].
      eapply app_logs_bind; [exact Himages|]. apply app_logs_ret.
    + simpl. by rewrite !app_nil_r.
  - eapply app_logs_eq.
    + eapply app_logs_bind; [by apply init_s3_client_available|].
      eapply app_logs_try_failed; [|apply (load_handler_logs f)].
      eapply app_logs_bind; [exact Hget|].
      eapply app_logs_bind; [exact Hd|].
      eapply app_logs_bind; [exact Hl|].
      apply app_logs_bind_failed. exact Himages.
    + simpl. by rewrite <- ?app_assoc.
Qed.


End HistoryFacts.

(** ** Keys and captions *)

Lemma str_app_cons a s1 s2 : String a s1 +:+ s2 = String a (s1 +:+ s2).
Proof. done. Qed.

Lemma str_app_nil_l s : "" +:+ s = s.
Proof. done. Qed.

Lemma str_app_nil_r s : s +:+ "" = s.
Proof. induction s as [|a s IH]; [done|]. by rewrite str_app_cons, IH. Qed.

Lemma str_app_assoc s1 s2 s3 : (s1 +:+ s2) +:+ s3 = s1 +:+ (s2 +:+ s3).
Proof. induction s1 as [|a s1 IH]; [done|]. by rewrite !str_app_cons, IH. Qed.

Lemma split_on_nonempty c s : Text.split_on c s <> [].
Proof.
  destruct s as [|a s]; simpl; [done|].
  destruct (Ascii.eqb a c); [done|]. by destruct (Text.split_on c s).
Qed.

(** No piece of a split holds the separator. *)
Lemma split_on_pieces c s :
  Forall (fun seg => Text.has_char c seg = false) (Text.split_on c s).
Proof.
  induction s as [|a s IH]; simpl; [by repeat constructor|].
  destruct (Ascii.eqb a c) eqn:Hac; [by constructor|].
  destruct (Text.split_on c s) as [|seg segs]; [by repeat constructor; simpl; rewrite Hac|].
  apply Forall_cons in IH as [Hseg Hsegs].
  constructor; [|done]. simpl. by rewrite Hac, Hseg.
Qed.

Lemma concat_cons2 sep x y l :
  String.concat sep (x :: y :: l) = x +:+ sep +:+ String.concat sep (y :: l).
Proof. done. Qed.

(** Joining the pieces with the separator gives the string back. *)
Lemma join_split_on c s :
  String.concat (String c "") (Text.split_on c s) = s.
Proof.
  induction s as [|a s IH]; [done|]. simpl Text.split_on.
  destruct (Ascii.eqb a c) eqn:Hac.
  - apply Ascii.eqb_eq in Hac as ->.
    destruct (Text.split_on c s) as [|seg segs] eqn:Hs;
      [by apply split_on_nonempty in Hs|].
    rewrite concat_cons2, IH. done.
  - destruct (Text.split_on c s) as [|seg segs] eqn:Hs;
      [by apply split_on_nonempty in Hs|].
    destruct segs as [|seg' segs].
    + simpl in *. by rewrite IH.
    + rewrite concat_cons2 in *. by rewrite str_app_cons, IH.
Qed.

(** A joined list ends with its last item; what stands before it is
    empty or ends with the separator. *)
Lemma concat_last sep l :
  l <> [] ->
  exists dir,
    String.concat sep l = dir +:+ List.last l "" /\
    (dir = "" \/ exists d, dir = d +:+ sep).
Proof.
  induction l as [|x l IH]; [done|]. intros _.
  destruct l as [|y l].
  - exists "". split; [done|by left].
  - destruct IH as (dir & Hdir & Hend); [done|].
    exists (x +:+ sep +:+ dir). split.
    + rewrite concat_cons2, Hdir.
      change (List.last (x :: y :: l) "") with (List.last (y :: l) "").
      by rewrite !str_app_assoc.
    + right. destruct Hend as [->|(d & ->)].
      * exists x. by rewrite str_app_nil_r.
      * exists (x +:+ sep +:+ d). by rewrite !str_app_assoc.
Qed.

Lemma last_in_list {A} (l : list A) d : l <> [] -> In (List.last l d) l.
Proof.
  induction l as [|x l IH]; [done|]. intros _.
  destruct l as [|y l]; [by left|]. right. by apply IH.
Qed.

(** X20. The caption [show_info] puts under a picture is the part of
    its key after the last slash: the key is a directory part, empty or
    ending with a slash, followed by the caption, and the caption holds no
    slash. *)
Theorem X20_caption_is_the_file_name k :
  exists dir,
    k = dir +:+ InformationPage.caption_of k /\
    Text.has_char "/" (InformationPage.caption_of k) = false /\
    (dir = "" \/ exists d, dir = d +:+ "/").
Proof.
  unfold InformationPage.caption_of.
  destruct (concat_last "/" (Text.split_on "/" k) (split_on_nonempty _ _))
    as (dir & Hdir & Hend).
  exists dir. rewrite join_split_on in Hdir. split; [done|]. split; [|done].
  pose proof (split_on_pieces "/" k) as Hpieces.
  rewrite List.Forall_forall in Hpieces. apply Hpieces.
  apply last_in_list, split_on_nonempty.
Qed.

Example caption_of_sample :
  InformationPage.caption_of "History/images/monza-1950.jpg" = "monza-1950.jpg" /\
  InformationPage.caption_of "cover.png" = "cover.png" /\
  InformationPage.caption_of "History/images/" = "".
Proof. by vm_compute. Qed.

(** ** [load_history_content] and [show_info] *)

(** X15. When the history text cannot be read, or cannot be decoded,
    [load_history_content] shows the error, returns [None] and asks the
    object store nothing more: the pictures are neither listed nor read. *)
Theorem X15_history_text_unreadable svc store env bucket e aw :
  client_available svc env ->
  (get_object store bucket "History/f1_history.txt" = Raised e \/
   exists r, get_object store bucket "History/f1_history.txt" = Returned r /\
             decode_utf8 store (Body r) = Raised e) ->
  run_app (InformationPage.load_history_content svc store env bucket) aw
  = (Done None,
     {| pinecone := pinecone aw; session_state := session_state aw;
        app_trace := app_trace aw ++
          [ client_event env;
            EvS3GetObject bucket "History/f1_history.txt";
            Core (EvUI "error" ("Error loading history data: " +:+ exn_str e)) ] |}).
Proof.
  intros Hc Hfail. by apply (load_history_text_failed svc store env bucket e).
Qed.

Lemma X15_history_text_unreadable_witness :
  run_app (InformationPage.load_history_content (Sample.services Sample.embedded)
             Pages.empty_bucket Sample.environ "f1wikipedia") Pages.fresh
  = (Done None,
     {| pinecone := pinecone Pages.fresh; session_state := ∅;
        app_trace := [] ++
          [ client_event Sample.environ;
            EvS3GetObject "f1wikipedia" "History/f1_history.txt";
            Core (EvUI "error" ("Error loading history data: "
                                +:+ exn_str (ServiceError "NoSuchKey"))) ] |}).
Proof.
  apply (X15_history_text_unreadable (Sample.services Sample.embedded)
           Pages.empty_bucket Sample.environ "f1wikipedia"
           (ServiceError "NoSuchKey") Pages.fresh).
  - reflexivity.
  - left. reflexivity.
Defined.

(** X16. When the text and every picture can be read,
    [load_history_content] returns the decoded text and one image for each
    listed key that ends in .jpg, .png or .jpeg, in the order of the
    listing; the object store is asked for the text, for the listing and
    for those keys, and for no other key of the listing. *)
Theorem X16_history_loads_the_listed_pictures svc store env bucket r text
    contents body_of aw :
  client_available svc env ->
  get_object store bucket "History/f1_history.txt" = Returned r ->
  decode_utf8 store (Body r) = Returned text ->
  list_objects_v2 store bucket "History/images/" = Returned {| Contents := contents |} ->
  (forall obj, In obj (default [] contents) ->
     InformationPage.is_image_key (Key obj) = true ->
     get_object store bucket (Key obj) = Returned {| Body := body_of (Key obj) |}) ->
  run_app (InformationPage.load_history_content svc store env bucket) aw
  = (Done (Some {| InformationPage.content := text;
                   InformationPage.images :=
                     map (image_of body_of) (image_keys (default [] contents)) |}),
     {| pinecone := pinecone aw; session_state := session_state aw;
        app_trace := app_trace aw ++
          [ client_event env;
            EvS3GetObject bucket "History/f1_history.txt";
            EvS3ListObjects bucket "History/images/" ] ++
          map (EvS3GetObject bucket) (image_keys (default [] contents)) |}).
Proof.
  intros Hc Hr Hdec Hlist Hget.
  pose proof (load_history_listed svc store env bucket r text contents Hc Hr Hdec
                Hlist _ _
                (load_images_all store bucket body_of (default [] contents) [] Hget))
    as H.
  simpl in H. rewrite H. by rewrite app_nil_r.
Qed.

Lemma X16_history_loads_witness :
  run_app (InformationPage.load_history_content (Sample.services Sample.embedded)
             Pages.store Sample.environ "f1wikipedia") Pages.fresh
  = (Done (Some {| InformationPage.content := "<History/f1_history.txt>";
                   InformationPage.images :=
                     map (image_of (fun k => "<" +:+ k +:+ ">"))
                       (image_keys (default [] (Some Pages.listing))) |}),
     {| pinecone := pinecone Pages.fresh; session_state := ∅;
        app_trace := [] ++
          [ client_event Sample.environ;
            EvS3GetObject "f1wikipedia" "History/f1_history.txt";
            EvS3ListObjects "f1wikipedia" "History/images/" ] ++
          map (EvS3GetObject "f1wikipedia")
            (image_keys (default [] (Some Pages.listing))) |}).
Proof.
  apply (X16_history_loads_the_listed_pictures (Sample.services Sample.embedded)
           Pages.store Sample.environ "f1wikipedia"
           {| Body := "<History/f1_history.txt>" |} "<History/f1_history.txt>"
           (Some Pages.listing) (fun k => "<" +:+ k +:+ ">") Pages.fresh).
  - reflexivity.
  - reflexivity.
  - reflexivity.
  - reflexivity.
  - intros obj _ _. reflexivity.
Defined.

(** On the sample bucket the two pictures are kept and the folder entry
    and the note are passed over. *)
Example image_keys_sample :
  image_keys Pages.listing
  = ["History/images/monza-1950.jpg"; "History/images/senna.png"].
Proof. vm_compute. reflexivity. Qed.

(** X17. One picture that cannot be read loses the whole page content:
    when the text was read and decoded and the listing holds a picture key
    whose object cannot be read, [load_history_content] returns [None], the
    text included, and the last thing it does is show the error. *)
Theorem X17_one_unreadable_picture_loses_all svc store env bucket r text objs aw :
  client_available svc env ->
  get_object store bucket "History/f1_history.txt" = Returned r ->
  decode_utf8 store (Body r) = Returned text ->
  list_objects_v2 store bucket "History/images/"
  = Returned {| Contents := Some objs |} ->
  Exists (fun obj => InformationPage.is_image_key (Key obj) = true /\
                     exists e, get_object store bucket (Key obj) = Raised e) objs ->
  exists e evs,
    run_app (InformationPage.load_history_content svc store env bucket) aw
    = (Done None,
       {| pinecone := pinecone aw; session_state := session_state aw;
          app_trace := app_trace aw ++ evs |}) /\
    last evs
    = Some (Core (EvUI "error" ("Error loading history data: " +:+ exn_str e))).
Proof.
  intros Hc Hr Hdec Hlist Hex.
  destruct (load_images_fails store bucket objs [] Hex) as (e & evs & Hloop).
  pose proof (load_history_listed svc store env bucket r text (Some objs) Hc Hr
                Hdec Hlist _ _ Hloop) as H.
  exists e. eexists. split; [apply H|].
  simpl. rewrite app_comm_cons. apply last_snoc.
Qed.

Lemma X17_one_unreadable_picture_witness :
  exists e evs,
    run_app (InformationPage.load_history_content (Sample.services Sample.embedded)
               Pages.flaky Sample.environ "f1wikipedia") Pages.fresh
    = (Done None,
       {| pinecone := pinecone Pages.fresh; session_state := ∅;
          app_trace := [] ++ evs |}) /\
    last evs
    = Some (Core (EvUI "error" ("Error loading history data: " +:+ exn_str e))).
Proof.
  apply (X17_one_unreadable_picture_loses_all (Sample.services Sample.embedded)
           Pages.flaky Sample.environ "f1wikipedia"
           {| Body := "<History/f1_history.txt>" |} "<History/f1_history.txt>"
           Pages.listing Pages.fresh).
  - reflexivity.
  - reflexivity.
  - reflexivity.
  - reflexivity.
  - unfold Pages.listing. do 3 apply Exists_cons_tl. apply Exists_cons_hd.
    split; [reflexivity|]. eexists. reflexivity.
Defined.



(** X18. A failure to construct the S3 client is not turned into a
    message: the call is made outside the [try], so [show_info] raises what
    the constructor raised, after the title and the heading and before any
    request to the object store, and without the warning. *)
Theorem X18_client_failure_escapes svc store env e aw :
  boto3_client svc (getenv env "AWS_ACCESS_KEY_ID")
    (getenv env "AWS_SECRET_ACCESS_KEY") (getenv env "AWS_REGION")
  = Raised e ->
  run_app (InformationPage.show_info svc store env) aw
  = (Failed (Exn e),
     {| pinecone := pinecone aw; session_state := session_state aw;
        app_trace := app_trace aw ++
          [ EvHtml InformationPage.custom_styles;
            Core (EvUI "title" "Formula 1 Encyclopedia");
            Core (EvUI "header" "F1 History");
            client_event env ] |}).
Proof.
  intros Hc.
  assert (app_logs (lift_core (init_s3_client svc env)) (Failed (Exn e))
            [client_event env]) as Hinit.
  { pose proof (app_logs_lift_core _ _ _ (init_s3_client_logs svc env)) as H.
    by rewrite Hc in H. }
  unfold InformationPage.show_info, InformationPage.add_custom_styles,
    InformationPage.load_history_content.
  eapply app_logs_eq.
  - eapply app_logs_bind; [apply app_logs_emit|].
    eapply app_logs_bind; [apply app_logs_ui|].
    eapply app_logs_bind; [apply app_logs_ui|].
    apply app_logs_bind_failed. apply app_logs_bind_failed. exact Hinit.
  - done.
Qed.

Lemma X18_client_failure_escapes_witness :
  run_app (InformationPage.show_info Pages.no_client Pages.store Sample.environ)
    Pages.fresh
  = (Failed (Exn (ServiceError "NoRegionError")),
     {| pinecone := pinecone Pages.fresh; session_state := ∅;
        app_trace := [] ++
          [ EvHtml InformationPage.custom_styles;
            Core (EvUI "title" "Formula 1 Encyclopedia");
            Core (EvUI "header" "F1 History");
            client_event Sample.environ ] |}).
Proof.
  apply (X18_client_failure_escapes Pages.no_client Pages.store Sample.environ
           (ServiceError "NoRegionError") Pages.fresh).
  reflexivity.
Defined.



(** ** [landing.py]: navigation *)


Lemma sidebar_buttons_loop clicked :
  Landing.sidebar_buttons clicked
  = app_for_each Landing.PAGES (button_step clicked) tt.
Proof. done. Qed.

(** The sidebar loop renders one button per page and leaves in the
    session the last page whose button was pressed. *)
Lemma sidebar_loop_run clicked pages : forall aw,
  run_app (app_for_each pages (button_step clicked) tt) aw
  = (Done tt,
     {| pinecone := pinecone aw;
        session_state :=
          match last (pressed clicked pages) with
          | Some entry => <["current_page" := fst entry]> (session_state aw)
          | None => session_state aw
          end;
        app_trace := app_trace aw ++
          map (fun entry => EvSidebar "button" (Landing.label (snd entry))) pages |}).
Proof.
  induction pages as [|[k d] pages IH]; intros aw; unfold run_app in *.
  - simpl. unfold app_ret. destruct aw. simpl. by rewrite app_nil_r.
  - assert (button_step clicked tt (k, d) aw
            = (Done tt,
               {| pinecone := pinecone aw;
                  session_state :=
                    if clicked (Landing.label d)
                    then <["current_page" := k]> (session_state aw)
                    else session_state aw;
                  app_trace := app_trace aw ++ [EvSidebar "button" (Landing.label d)] |}))
      as Hstep.
    { unfold button_step, mbind, App_bind, app_bind, app_emit, write_session, app_ret.
      by destruct (clicked (Landing.label d)). }
    change (app_for_each ((k, d) :: pages) (button_step clicked) tt aw)
      with (app_bind (button_step clicked tt (k, d))
              (app_for_each pages (button_step clicked)) aw).
    unfold app_bind. rewrite Hstep, IH. simpl.
    f_equal. f_equal; [|by rewrite <- app_assoc].
    unfold pressed. simpl List.filter.
    destruct (clicked (Landing.label d)) eqn:Hd; [|done].
    destruct (List.filter _ pages) as [|e l] eqn:Hf; [done|].
    rewrite (last_cons_cons (k, d) e l).
    destruct (last (e :: l)) as [entry|] eqn:Hl; [apply insert_insert_eq|].
    by apply last_None in Hl.
Qed.

Lemma pages_lookup entry :
  In entry Landing.PAGES ->
  Landing.page_of Landing.PAGES (fst entry) = Returned (snd entry).
Proof. simpl. intros [<-|[<-|[<-|[]]]]; reflexivity. Qed.

Lemma last_filter_in {A} (f : A -> bool) (l : list A) x :
  last (List.filter f l) = Some x -> In x l.
Proof.
  intros H. apply last_Some in H as [l' H].
  assert (In x (List.filter f l)) as Hin.
  { rewrite H. apply in_or_app. right. by left. }
  by apply filter_In in Hin as [? _].
Qed.

(** The session after the first statement of [run] and after the
    sidebar loop. *)
Lemma navigate_session clicked (state : gmap string string) :
  let state0 :=
    if decide ("current_page" ∉ dom state)
    then <["current_page" := "informationpage"]> state else state in
  let state1 :=
    match last (pressed clicked Landing.PAGES) with
    | Some entry => <["current_page" := fst entry]> state0
    | None => state0
    end in
  state1 !! "current_page" = Some (selected_page clicked state) /\
  state1 = <["current_page" := selected_page clicked state]> state.
Proof.
  intros state0 state1. unfold state1, state0, selected_page.
  destruct (last (pressed clicked Landing.PAGES)) as [entry|].
  - rewrite lookup_insert_eq. split; [done|].
    destruct (decide _); [apply insert_insert_eq|done].
  - destruct (state !! "current_page") as [k|] eqn:Hs; simpl.
    + destruct (decide ("current_page" ∉ dom state)) as [Hno|_].
      { exfalso. apply Hno, elem_of_dom. by exists k. }
      split; [done|]. by rewrite insert_id.
    + destruct (decide ("current_page" ∉ dom state)) as [_|Hin].
      2:{ exfalso. apply Hin. by apply not_elem_of_dom. }
      by rewrite lookup_insert_eq.
Qed.

Lemma navigate_run clicked aw page :
  Landing.page_of Landing.PAGES (selected_page clicked (session_state aw))
  = Returned page ->
  run_app (Landing.navigate clicked) aw
  = (Done (selected_page clicked (session_state aw)),
     {| pinecone := pinecone aw;
        session_state :=
          <["current_page" := selected_page clicked (session_state aw)]>
            (session_state aw);
        app_trace := app_trace aw ++
          [EvSidebar "title" "Navigation"] ++
          map (fun entry => EvSidebar "button" (Landing.label (snd entry)))
            Landing.PAGES ++
          [Core (EvUI "title" (Landing.title page))] |}).
Proof.
  intros Hpage.
  destruct (navigate_session clicked (session_state aw)) as [Hlook Hstate].
  pose proof (sidebar_loop_run clicked Landing.PAGES) as Hloop.
  unfold Landing.navigate. rewrite sidebar_buttons_loop.
  unfold run_app, mbind, App_bind, app_bind, read_session, app_emit, ui,
    lift_outcome, app_ret in *.
  destruct (decide ("current_page" ∉ dom (session_state aw))) as [Hno|Hin];
    unfold write_session; rewrite Hloop; cbn [pinecone session_state app_trace];
    rewrite Hlook; cbn [subscript to_result]; rewrite Hpage; cbn [to_result];
    rewrite Hstate; unfold app_emit; cbn [pinecone session_state app_trace];
    rewrite <- ?app_assoc; reflexivity.
Qed.

(** X21. [run] never fails to find its page.  When the page kept in the
    session is absent or is one of [PAGES], the navigation part of [run]
    renders the sidebar title and one button per page, keeps in the session
    the page whose button was pressed (the last one in the order of [PAGES]
    if several were), else the page the session had, else the information
    page, and renders the title of that page, which is again one of
    [PAGES]. *)
Theorem X21_navigation_selects_a_page clicked aw :
  (forall k, session_state aw !! "current_page" = Some k ->
             exists page, Landing.page_of Landing.PAGES k = Returned page) ->
  exists page,
    Landing.page_of Landing.PAGES (selected_page clicked (session_state aw))
    = Returned page /\
    run_app (Landing.navigate clicked) aw
    = (Done (selected_page clicked (session_state aw)),
       {| pinecone := pinecone aw;
          session_state :=
            <["current_page" := selected_page clicked (session_state aw)]>
              (session_state aw);
          app_trace := app_trace aw ++
            [EvSidebar "title" "Navigation"] ++
            map (fun entry => EvSidebar "button" (Landing.label (snd entry)))
              Landing.PAGES ++
            [Core (EvUI "title" (Landing.title page))] |}).
Proof.
  intros Hvalid.
  assert (exists page,
    Landing.page_of Landing.PAGES (selected_page clicked (session_state aw))
    = Returned page) as [page Hpage].
  { unfold selected_page, pressed.
    destruct (last (List.filter _ Landing.PAGES)) as [entry|] eqn:Hl.
    - exists (snd entry). apply pages_lookup. by apply last_filter_in in Hl.
    - destruct (session_state aw !! "current_page") as [k|] eqn:Hs.
      + by apply Hvalid.
      + by eexists. }
  exists page. split; [exact Hpage|]. by apply navigate_run.
Qed.

Lemma X21_navigation_witness :
  exists page,
    Landing.page_of Landing.PAGES (selected_page Pages.bot_clicked ∅)
    = Returned page /\
    run_app (Landing.navigate Pages.bot_clicked) Pages.fresh
    = (Done (selected_page Pages.bot_clicked ∅),
       {| pinecone := pinecone Pages.fresh;
          session_state := <["current_page" := selected_page Pages.bot_clicked ∅]> ∅;
          app_trace := [] ++
            [EvSidebar "title" "Navigation"] ++
            map (fun entry => EvSidebar "button" (Landing.label (snd entry)))
              Landing.PAGES ++
            [Core (EvUI "title" (Landing.title page))] |}).
Proof.
  apply (X21_navigation_selects_a_page Pages.bot_clicked Pages.fresh).
  intros k Hk. vm_compute in Hk. discriminate Hk.
Defined.

(** Pressing the bot's button on a new session selects the bot. *)
Example selected_page_sample :
  selected_page Pages.bot_clicked ∅ = "paddockpal1" /\
  selected_page Pages.nothing_clicked ∅ = "informationpage" /\
  selected_page Pages.nothing_clicked {["current_page" := "paddockpal1"]}
  = "paddockpal1".
Proof. by vm_compute. Qed.

(** ** The console loop *)

Section ConsoleFacts.

Variable g : Globals.
Variable svc : Services.








End ConsoleFacts.






(** ** [landing.py]: the default page *)



(** The test for a picture is on the exact ending of the key. *)
Example is_image_key_sample :
  InformationPage.is_image_key "History/images/monza-1950.jpg" = true /\
  InformationPage.is_image_key "History/images/start.JPG" = false /\
  InformationPage.is_image_key "History/images/notes.txt" = false /\
  InformationPage.is_image_key ".jpeg" = true.
Proof. by vm_compute. Qed.
